(** * Goroskopchiki: the zodiac bot of [bot.py]

    A shallow embedding of [bot.py]: the three registry dictionaries, the
    combination number, the two page scrapers over a document tree, the
    conversation handlers with their session dictionary and outbound
    messages, and the dispatch table built in [main].

    Conventions.
    - A Python [str] is a [string] holding its UTF-8 bytes; equality of
      Python strings is equality of these byte strings.
    - A Python [int] is a [Z].
    - A value that is either a [str] or [None] is an [option string].
    - [ZODIAC_SIGNS], [ZODIAC_INDEXES] and [ZODIAC_INFO] are association
      lists in declaration order (the keyboards iterate over the keys);
      [context.user_data] is a [gmap string string]. *)

From Stdlib Require Import ZArith List Ascii String Lia.
From stdpp Require Import base option list strings pretty gmap fin_maps.
Set Warnings "-register-all".
Import ListNotations.
Local Open Scope string_scope.
Local Open Scope Z_scope.

(** ** Exceptions and fallible results *)

Inductive exn : Type :=
| KeyError (key : option string)
| AttributeError (msg : string)
| RequestException (msg : string).

Inductive result (A : Type) : Type :=
| Ok (a : A)
| Raise (e : exn).
Arguments Ok {A} a.
Arguments Raise {A} e.

Definition result_bind {A B} (r : result A) (k : A -> result B) : result B :=
  match r with
  | Ok a => k a
  | Raise e => Raise e
  end.

(** ** Dictionaries with insertion order *)

Module Dict.

Fixpoint get {V} (d : list (string * V)) (k : string) : option V :=
  match d with
  | [] => None
  | (k', v) :: rest => if bool_decide (k = k') then Some v else get rest k
  end.

Definition keys {V} (d : list (string * V)) : list string := map fst d.

(** [k in d] *)
Definition contains {V} (d : list (string * V)) (k : string) : bool :=
  match get d k with Some _ => true | None => false end.

(** [d[k]], where [k] may also be [None]; a miss raises [KeyError]. *)
Definition getitem {V} (d : list (string * V)) (k : option string) : result V :=
  match k with
  | None => Raise (KeyError None)
  | Some s => match get d s with
              | Some v => Ok v
              | None => Raise (KeyError (Some s))
              end
  end.

(** [d.get(k, default)] *)
Definition get_default {V} (d : list (string * V)) (k : option string) (default : V) : V :=
  match k with
  | None => default
  | Some s => match get d s with Some v => v | None => default end
  end.

End Dict.

(** ** The registry *)

Definition PERIODS : list string := ["today"; "week"; "month"].

Definition ZODIAC_SIGNS : list (string * string) :=
  [ ("♈ Овен", "aries");
    ("♉ Телец", "taurus");
    ("♊ Близнецы", "gemini");
    ("♋ Рак", "cancer");
    ("♌ Лев", "leo");
    ("♍ Дева", "virgo");
    ("♎ Весы", "libra");
    ("♏ Скорпион", "scorpio");
    ("♐ Стрелец", "sagittarius");
    ("♑ Козерог", "capricorn");
    ("♒ Водолей", "aquarius");
    ("♓ Рыбы", "pisces") ].

Definition ZODIAC_INDEXES : list (string * Z) :=
  [ ("♈ Овен", 1);
    ("♉ Телец", 2);
    ("♊ Близнецы", 3);
    ("♋ Рак", 4);
    ("♌ Лев", 5);
    ("♍ Дева", 6);
    ("♎ Весы", 7);
    ("♏ Скорпион", 8);
    ("♐ Стрелец", 9);
    ("♑ Козерог", 10);
    ("♒ Водолей", 11);
    ("♓ Рыбы", 12) ].

Definition ZODIAC_INFO : list (string * string) :=
  [ ("♈ Овен", "♈ Управитель Марс дает знаку такие черты как резкость, яркость, живость, энергичность и стремительность.");
    ("♉ Телец", "♉ Управитель Венера дарует стабильность, уверенность и материальную гармонию.");
    ("♊ Близнецы", "♊ Управитель Меркурий отвечает за любознательность, общительность, умение налаживать контакты.");
    ("♋ Рак", "♋ Управитель Луна несет душевность, чувственность, внутреннее спокойствие и умение заботиться о других.");
    ("♌ Лев", "♌ Управитель Солнце наделяет энергичностью, страстностью, умением быть в центре внимания, устойчивостью и творческим началом.");
    ("♍ Дева", "♍ Управитель Меркурий дарит внимательность, стремление к идеальности и порядку, аккуратность и перфекционизм.");
    ("♎ Весы", "♎ Управитель Венера отвечает за плавность, мягкость, баланс, красоту и утонченность.");
    ("♏ Скорпион", "♏ Управитель Плутон несет страсть, интуицию, загадочность, умение видеть суть событий.");
    ("♐ Стрелец", "♐ Управитель Юпитер дает человеку сообразительность, широту души, тягу к расширению границ, умение вести за собой.");
    ("♑ Козерог", "♑ Управитель Сатурн привнесет в характер конкретность и дисциплину, умение видеть цель и идти к ней.");
    ("♒ Водолей", "♒ Управитель Уран отвечает за революционность, новые прорывные идеи, предвосхищение будущего и внутреннюю свободу.");
    ("♓ Рыбы", "♓ Управитель Нептун подарит творческую жилку, вдохновение, умение копнуть глубоко и наличие своей философии.") ].

Definition SELECT_SIGN : Z := 0.
Definition SELECT_OPTION : Z := 1.
Definition SELECT_COMPATIBILITY_MALE : Z := 2.
Definition SELECT_COMPATIBILITY_FEMALE : Z := 3.

(** [ConversationHandler.END] *)
Definition END : Z := -1.

(** ** The combination number *)

Definition calculate_combination_number (male_sign female_sign : option string) : result Z :=
  result_bind (Dict.getitem ZODIAC_INDEXES male_sign) (fun male_index =>
  result_bind (Dict.getitem ZODIAC_INDEXES female_sign) (fun female_index =>
  Ok (12 * (male_index - 1) + female_index))).

(** ** Documents

    What [BeautifulSoup(text, "html.parser")] builds, as far as [bot.py]
    looks at it: text nodes and elements with a name, the tokens of their
    [class] attribute and their children in document order. The soup
    itself is an element (named [[document]]). *)

Inductive Node : Type :=
| NavigableString (s : string)
| Tag (name : string) (class_ : list string) (contents : list Node).

(** [tag.descendants]: every node below [n], in document order. *)
Fixpoint descendants (n : Node) : list Node :=
  match n with
  | NavigableString _ => []
  | Tag _ _ contents => flat_map (fun c => c :: descendants c) contents
  end.

(** [tag.text]: the text nodes below [n], concatenated. *)
Fixpoint text (n : Node) : string :=
  match n with
  | NavigableString s => s
  | Tag _ _ contents => String.concat "" (map text contents)
  end.

(** How a [class_] string is matched against a multi-valued attribute:
    against each token, then against the tokens joined by one space. *)
Definition class_matches (wanted : string) (tokens : list string) : bool :=
  existsb (fun token => bool_decide (token = wanted)) tokens
  || bool_decide (String.concat " " tokens = wanted).

Definition matches (name : string) (class_ : option string) (n : Node) : bool :=
  match n with
  | NavigableString _ => false
  | Tag name' tokens _ =>
      bool_decide (name' = name)
      && match class_ with
         | None => true
         | Some wanted => class_matches wanted tokens
         end
  end.

(** [tag.find_all(name, class_=...)] and [tag.find(name, class_=...)] *)
Definition find_all (name : string) (class_ : option string) (n : Node) : list Node :=
  filter (fun d => matches name class_ d = true) (descendants n).

Definition find (name : string) (class_ : option string) (n : Node) : option Node :=
  head (find_all name class_ n).

(** ** [str.strip()]

    The characters [str.isspace] accepts, as UTF-8 byte sequences of one,
    two and three bytes: U+0009..U+000D, U+001C..U+0020, U+0085, U+00A0,
    U+1680, U+2000..U+200A, U+2028, U+2029, U+202F, U+205F, U+3000. *)

Definition is_space1 (b1 : N) : bool :=
  ((9 <=? b1) && (b1 <=? 13) || (28 <=? b1) && (b1 <=? 32))%N.

Definition is_space2 (b1 b2 : N) : bool :=
  ((b1 =? 194) && ((b2 =? 133) || (b2 =? 160)))%N.

Definition is_space3 (b1 b2 b3 : N) : bool :=
  ((b1 =? 225) && (b2 =? 154) && (b3 =? 128)
   || (b1 =? 226) && (b2 =? 128)
      && ((128 <=? b3) && (b3 <=? 138) || (b3 =? 168) || (b3 =? 169) || (b3 =? 175))
   || (b1 =? 226) && (b2 =? 129) && (b3 =? 159)
   || (b1 =? 227) && (b2 =? 128) && (b3 =? 128))%N.

(** The width in bytes of the white-space character [s] starts with (or,
    with [backwards], of the one the reversed [s] ends with); 0 if none. *)
Definition space_width (backwards : bool) (s : list N) : nat :=
  match s with
  | x :: y :: z :: _ =>
      if is_space1 x then 1
      else if (if backwards then is_space2 y x else is_space2 x y) then 2
      else if (if backwards then is_space3 z y x else is_space3 x y z) then 3
      else 0
  | [x; y] =>
      if is_space1 x then 1
      else if (if backwards then is_space2 y x else is_space2 x y) then 2
      else 0
  | [x] => if is_space1 x then 1 else 0
  | [] => 0
  end%nat.

Fixpoint strip_front (backwards : bool) (fuel : nat) (s : list N) : list N :=
  match fuel with
  | O => s
  | S fuel' =>
      match space_width backwards s with
      | O => s
      | w => strip_front backwards fuel' (drop w s)
      end
  end.

Definition strip (s : string) : string :=
  let bytes := map N_of_ascii (list_ascii_of_string s) in
  let left := strip_front false (length bytes) bytes in
  let both := rev (strip_front true (length left) (rev left)) in
  string_of_list_ascii (map ascii_of_N both).

(** ** The content source *)

Record Response : Type := { status_code : Z; response_text : string }.

Definition CONTAINER_CLASS : string := "b6a5d4949c e45a4c1552".

Definition newline : string := String "010" "".

(** [f"https://horo.mail.ru/prediction/{sign}/{period}/"] *)
Definition horoscope_url (sign period : string) : string :=
  "https://horo.mail.ru/prediction/" ++ sign ++ "/" ++ period ++ "/".

(** [f"https://horo.mail.ru/compatibility/zodiac/{combination_number}/"] *)
Definition compatibility_url (combination_number : Z) : string :=
  "https://horo.mail.ru/compatibility/zodiac/" ++ pretty combination_number ++ "/".

Section ContentSource.

(** [requests.get]: what the site answers for a URL, or the exception
    the call raises (no connection, time-out, ...). *)
Variable requests_get : string -> result Response.

(** [BeautifulSoup(text, "html.parser")] *)
Variable BeautifulSoup : string -> Node.

Definition get_horoscope (sign period : string) : result string :=
  let url := horoscope_url sign period in
  result_bind (requests_get url) (fun response =>
  let soup := BeautifulSoup (response_text response) in
  let horoscope_div := find "div" (Some CONTAINER_CLASS) soup in
  match horoscope_div with
  | Some div =>
      match find "p" None div with
      | Some p => Ok (strip (text p))
      | None => Raise (AttributeError "'NoneType' object has no attribute 'text'")
      end
  | None => Ok "Гороскоп не найден."
  end).

(** The local variables of the loop in [get_compatibility]; [title] and
    [paragraph] are unbound before the first iteration. *)
Record loop_locals : Type := {
  title : option string;
  paragraph : option string;
  compatibility_details : list string
}.

(** One iteration of [for div in compatibility_divs]. *)
Definition loop_body (locals : loop_locals) (div : Node) : loop_locals :=
  let title_tag := find "h2" None div in
  let paragraph_tag := find "p" None div in
  let title :=
    match title_tag with
    | Some t => strip (text t)
    | None => "Без заголовка"
    end in
  let paragraph :=
    match paragraph_tag with
    | Some p => strip (text p)
    | None => "Информация отсутствует."
    end in
  {| title := Some title;
     paragraph := Some paragraph;
     compatibility_details := compatibility_details locals ++ [paragraph] |}.

Definition loop (compatibility_divs : list Node) : loop_locals :=
  fold_left loop_body compatibility_divs
    {| title := None; paragraph := None; compatibility_details := [] |}.

Definition get_compatibility (male_sign female_sign : option string) : result string :=
  result_bind (calculate_combination_number male_sign female_sign) (fun combination_number =>
  let url := compatibility_url combination_number in
  result_bind (requests_get url) (fun response =>
  if negb (status_code response =? 200) then
    Ok "Не удалось получить данные с сайта."
  else
    let soup := BeautifulSoup (response_text response) in
    let compatibility_divs := find_all "div" (Some CONTAINER_CLASS) soup in
    match compatibility_divs with
    | _ :: _ =>
        Ok (String.concat (newline ++ newline)
              (compatibility_details (loop compatibility_divs)))
    | [] => Ok "Информация о совместимости не найдена."
    end)).

End ContentSource.

(** ** Handlers

    A handler reads the text of the incoming message, reads and writes
    [context.user_data], sends messages with [update.message.reply_text]
    and returns the next state or raises. What it wrote and sent before
    raising stays. *)

Record ReplyKeyboardMarkup : Type := {
  keyboard : list (list string);
  one_time_keyboard : option bool;
  resize_keyboard : option bool
}.

Record Message : Type := {
  message_text : string;
  reply_markup : option ReplyKeyboardMarkup
}.

Record world : Type := {
  user_data : gmap string string;
  outbox : list Message
}.

Definition handler (A : Type) : Type := world -> result A * world.

Definition ret {A} (a : A) : handler A := fun w => (Ok a, w).

Definition bind {A B} (m : handler A) (k : A -> handler B) : handler B :=
  fun w =>
    match m w with
    | (Ok a, w') => k a w'
    | (Raise e, w') => (Raise e, w')
    end.

Definition lift {A} (r : result A) : handler A := fun w => (r, w).

Notation "'let*' x ':=' m 'in' k" := (bind m (fun x => k))
  (at level 10, x name, m at level 100, k at level 200, only parsing).
Notation "'await' m ; k" := (bind m (fun _ => k))
  (at level 10, m at level 100, k at level 200, only parsing).

(** [update.message.reply_text(text, reply_markup=markup)] *)
Definition reply_text (text : string) (markup : option ReplyKeyboardMarkup) : handler unit :=
  fun w =>
    (Ok tt, {| user_data := user_data w;
               outbox := outbox w ++ [{| message_text := text; reply_markup := markup |}] |}).

(** [context.user_data.get(key)] *)
Definition user_data_get (key : string) : handler (option string) :=
  fun w => (Ok (user_data w !! key), w).

(** [context.user_data[key] = value] *)
Definition user_data_set (key value : string) : handler unit :=
  fun w => (Ok tt, {| user_data := <[key := value]> (user_data w); outbox := outbox w |}).

(** [[[zodiac] for zodiac in ZODIAC_SIGNS.keys()]] *)
Definition sign_keyboard : list (list string) :=
  map (fun zodiac => [zodiac]) (Dict.keys ZODIAC_SIGNS).

Definition option_keyboard : list (list string) :=
  [ ["🔮 Гороскоп на сегодня"; "📅 Гороскоп на неделю"; "🌙 Гороскоп на месяц"];
    ["♻️ Сменить знак"; "ℹ️ Информация о знаке"; "💑 Совместимость"] ].

Definition one_time_markup (reply_keyboard : list (list string)) : option ReplyKeyboardMarkup :=
  Some {| keyboard := reply_keyboard; one_time_keyboard := Some true; resize_keyboard := Some true |}.

Definition resize_markup (reply_keyboard : list (list string)) : option ReplyKeyboardMarkup :=
  Some {| keyboard := reply_keyboard; one_time_keyboard := None; resize_keyboard := Some true |}.

Section Handlers.

Variable requests_get : string -> result Response.
Variable BeautifulSoup : string -> Node.

(** The argument of every handler is [update.message.text]. *)

Definition start (_ : string) : handler Z :=
  let reply_keyboard := sign_keyboard in
  await reply_text "🌟 Привет! Выберите ваш знак зодиака:" (one_time_markup reply_keyboard);
  ret SELECT_SIGN.

Definition select_sign (message : string) : handler Z :=
  let user_sign := message in
  if negb (Dict.contains ZODIAC_SIGNS user_sign) then
    await reply_text "⏳ Пожалуйста, подождите немного перед следующим сообщением." None;
    ret SELECT_SIGN
  else
    await user_data_set "sign" user_sign;
    await reply_text ("Вы выбрали " ++ user_sign ++ ". Что вас интересует?")
                     (resize_markup option_keyboard);
    ret SELECT_OPTION.

Definition select_compatibility_male (_ : string) : handler Z :=
  let reply_keyboard := sign_keyboard in
  await reply_text "Выберите знак мужчины:" (one_time_markup reply_keyboard);
  ret SELECT_COMPATIBILITY_MALE.

(** [reply_text(get_horoscope(ZODIAC_SIGNS[sign], period))] *)
Definition reply_horoscope (sign : option string) (period : string) : handler unit :=
  let* external := lift (Dict.getitem ZODIAC_SIGNS sign) in
  let* horoscope := lift (get_horoscope requests_get BeautifulSoup external period) in
  reply_text horoscope None.

Definition select_option (message : string) : handler Z :=
  let user_choice := message in
  let* sign := user_data_get "sign" in
  if bool_decide (user_choice = "🔮 Гороскоп на сегодня") then
    await reply_horoscope sign "today"; ret SELECT_OPTION
  else if bool_decide (user_choice = "📅 Гороскоп на неделю") then
    await reply_horoscope sign "week"; ret SELECT_OPTION
  else if bool_decide (user_choice = "🌙 Гороскоп на месяц") then
    await reply_horoscope sign "month"; ret SELECT_OPTION
  else if bool_decide (user_choice = "♻️ Сменить знак") then
    start message
  else if bool_decide (user_choice = "ℹ️ Информация о знаке") then
    await reply_text (Dict.get_default ZODIAC_INFO sign "Информация о знаке недоступна.") None;
    ret SELECT_OPTION
  else if bool_decide (user_choice = "💑 Совместимость") then
    select_compatibility_male message
  else
    await reply_text "🚫 Пожалуйста, выберите опцию из списка." None;
    ret SELECT_OPTION.

Definition select_compatibility_female (message : string) : handler Z :=
  let male_sign := message in
  if negb (Dict.contains ZODIAC_SIGNS male_sign) then
    await reply_text "Пожалуйста, выберите знак из предложенного списка." None;
    ret SELECT_COMPATIBILITY_MALE
  else
    await user_data_set "male_sign" male_sign;
    let reply_keyboard := sign_keyboard in
    await reply_text ("Вы выбрали " ++ male_sign ++ ". Теперь выберите знак женщины:")
                     (one_time_markup reply_keyboard);
    ret SELECT_COMPATIBILITY_FEMALE.

Definition compatibility_result (message : string) : handler Z :=
  let female_sign := message in
  let* male_sign := user_data_get "male_sign" in
  if negb (Dict.contains ZODIAC_SIGNS female_sign) then
    await reply_text "Пожалуйста, выберите знак из предложенного списка." None;
    ret SELECT_COMPATIBILITY_FEMALE
  else
    let* compatibility :=
      lift (get_compatibility requests_get BeautifulSoup male_sign (Some female_sign)) in
    await reply_text compatibility None;
    let reply_keyboard := option_keyboard in
    await reply_text "Что вас интересует?" (resize_markup reply_keyboard);
    ret SELECT_OPTION.

Definition cancel (_ : string) : handler Z :=
  await reply_text "👋 До свидания!" None;
  ret END.

End Handlers.

(** ** The conversation built in [main]

    An update carries the text of the message and, when the text starts
    with a bot command, the name of that command. *)

Record Update : Type := {
  update_text : string;
  update_command : option string
}.

Inductive handler_kind : Type :=
| CommandHandler (command : string)
| TextMessageHandler.  (* MessageHandler(filters.TEXT & ~filters.COMMAND, _) *)

Definition check_update (kind : handler_kind) (update : Update) : bool :=
  match kind, update_command update with
  | CommandHandler command, Some sent => bool_decide (sent = command)
  | CommandHandler _, None => false
  | TextMessageHandler, Some _ => false
  | TextMessageHandler, None => true
  end.

Definition callback : Type := string -> handler Z.

Record ConversationHandler : Type := {
  entry_points : list (handler_kind * callback);
  states : list (Z * list (handler_kind * callback));
  fallbacks : list (handler_kind * callback)
}.

Fixpoint states_get (table : list (Z * list (handler_kind * callback))) (state : Z)
  : list (handler_kind * callback) :=
  match table with
  | [] => []
  | (state', handlers) :: rest =>
      if state =? state' then handlers else states_get rest state
  end.

Fixpoint first_match (handlers : list (handler_kind * callback)) (update : Update)
  : option callback :=
  match handlers with
  | [] => None
  | (kind, run) :: rest =>
      if check_update kind update then Some run else first_match rest update
  end.

(** The state after a callback returned [outcome]: [END] closes the
    conversation, a callback that raises leaves the state as it was. *)
Definition update_state (conversation : option Z) (outcome : result Z) : option Z :=
  match outcome with
  | Ok new_state => if new_state =? END then None else Some new_state
  | Raise _ => conversation
  end.

Section Conversation.

Variable requests_get : string -> result Response.
Variable BeautifulSoup : string -> Node.

Definition conv_handler : ConversationHandler := {|
  entry_points := [(CommandHandler "start", start)];
  states :=
    [ (SELECT_SIGN, [(TextMessageHandler, select_sign)]);
      (SELECT_OPTION, [(TextMessageHandler, select_option requests_get BeautifulSoup)]);
      (SELECT_COMPATIBILITY_MALE, [(TextMessageHandler, select_compatibility_female)]);
      (SELECT_COMPATIBILITY_FEMALE,
         [(TextMessageHandler, compatibility_result requests_get BeautifulSoup)]) ];
  fallbacks := [(CommandHandler "cancel", cancel)]
|}.

(** One update for a conversation that is in [conversation] ([None]: not
    started or ended). The handlers of the current state are tried
    before the fallbacks, the entry points only when no conversation
    runs. The result is what the chosen callback did ([None]: no handler
    took the update) and the state the conversation is in afterwards. *)
Definition handle_update (conversation : option Z) (update : Update) (w : world)
  : option (result Z * world) * option Z :=
  let candidates :=
    match conversation with
    | None => entry_points conv_handler
    | Some state => (states_get (states conv_handler) state ++ fallbacks conv_handler)%list
    end in
  match first_match candidates update with
  | None => (None, conversation)
  | Some run =>
      let outcome := run (update_text update) w in
      (Some outcome, update_state conversation (fst outcome))
  end.

End Conversation.

(** A plain text message and a command. *)
Definition text_message (text : string) : Update :=
  {| update_text := text; update_command := None |}.

Definition command_message (command : string) : Update :=
  {| update_text := "/" ++ command; update_command := Some command |}.

(** A sign label is registered when it is a key of [ZODIAC_SIGNS]: the
    test [label in ZODIAC_SIGNS] of the handlers. *)
Definition registered (label : string) : Prop :=
  Dict.contains ZODIAC_SIGNS label = true.

(** The session of a conversation before an update: no message sent yet. *)
Definition session (data : gmap string string) : world :=
  {| user_data := data; outbox := [] |}.

(** ** The words of the specification for the compatibility text

    What one container contributes: its paragraph, trimmed, or the
    placeholder; and its heading, trimmed, or the placeholder. *)

Definition paragraph_or_placeholder (div : Node) : string :=
  match find "p" None div with
  | Some p => strip (text p)
  | None => "Информация отсутствует."
  end.

Definition heading_or_placeholder (div : Node) : string :=
  match find "h2" None div with
  | Some h2 => strip (text h2)
  | None => "Без заголовка"
  end.

(** The three horoscope actions of the menu with their periods. *)
Definition horoscope_actions : list (string * string) :=
  [ ("🔮 Гороскоп на сегодня", "today");
    ("📅 Гороскоп на неделю", "week");
    ("🌙 Гороскоп на месяц", "month") ].

(** Sending one message. *)
Definition sent (w : world) (text : string) (markup : option ReplyKeyboardMarkup) : world :=
  {| user_data := user_data w;
     outbox := outbox w ++ [{| message_text := text; reply_markup := markup |}] |}.

(** A content source that is down, one that answers every request with
    the same response, and a parser that yields the same document for
    every page: the sources used in the examples. *)
Definition offline (_ : string) : result Response :=
  Raise (RequestException "connection refused").

Definition always (response : Response) (_ : string) : result Response := Ok response.

Definition parsed_as (document : list Node) (_ : string) : Node :=
  Tag "[document]" [] document.

Definition container (contents : list Node) : Node :=
  Tag "div" ["b6a5d4949c"; "e45a4c1552"] contents.

(** ** The conversation over time

    What [application.run_polling()] does with the updates of one user:
    they are handled one after the other, each against what the site
    answers at that time; the state of the conversation and
    [context.user_data] are kept between updates, also after a callback
    raised. The third component collects every message sent. *)

Fixpoint run (BeautifulSoup : string -> Node)
    (updates : list (Update * (string -> result Response)))
    (now : option Z * gmap string string * list Message)
  : option Z * gmap string string * list Message :=
  match updates with
  | [] => now
  | (update, requests_get) :: rest =>
      let '(conversation, data, messages) := now in
      let step := handle_update requests_get BeautifulSoup conversation update (session data) in
      run BeautifulSoup rest
        match fst step with
        | Some (_, w) => (snd step, user_data w, (messages ++ outbox w)%list)
        | None => (snd step, data, messages)
        end
  end.

(** The arrows of the conversation: the states one update can lead to. *)
Definition successors (conversation : option Z) : list (option Z) :=
  match conversation with
  | None => [None; Some SELECT_SIGN]
  | Some state =>
      if state =? SELECT_SIGN then
        [None; Some SELECT_SIGN; Some SELECT_OPTION]
      else if state =? SELECT_OPTION then
        [None; Some SELECT_OPTION; Some SELECT_SIGN; Some SELECT_COMPATIBILITY_MALE]
      else if state =? SELECT_COMPATIBILITY_MALE then
        [None; Some SELECT_COMPATIBILITY_MALE; Some SELECT_COMPATIBILITY_FEMALE]
      else if state =? SELECT_COMPATIBILITY_FEMALE then
        [None; Some SELECT_COMPATIBILITY_FEMALE; Some SELECT_OPTION]
      else
        [None; Some state]
  end.

(** A value that is a registered label (and not [None]). *)
Definition registered_value (value : option string) : Prop :=
  match value with
  | Some label => registered label
  | None => False
  end.

(** What the session holds in each state of a conversation that began
    with [/start]: the user's sign from [SELECT_OPTION] on, and the male
    sign while the female one is awaited. *)
Definition well_formed (conversation : option Z) (data : gmap string string) : Prop :=
  match conversation with
  | None => True
  | Some state =>
      state = SELECT_SIGN
      \/ (state = SELECT_OPTION /\ registered_value (data !! "sign"))
      \/ (state = SELECT_COMPATIBILITY_MALE /\ registered_value (data !! "sign"))
      \/ (state = SELECT_COMPATIBILITY_FEMALE
          /\ registered_value (data !! "sign") /\ registered_value (data !! "male_sign"))
  end.

(** * Properties *)

(** ** Evaluation on the values of [test_bot.py] *)

Example combination_unknown_male :
  calculate_combination_number (Some "Несуществующий знак") (Some "♉ Телец")
  = Raise (KeyError (Some "Несуществующий знак")).
Proof. reflexivity. Qed.

Example combination_unknown_female :
  calculate_combination_number (Some "♈ Овен") (Some "Несуществующий знак")
  = Raise (KeyError (Some "Несуществующий знак")).
Proof. reflexivity. Qed.

Example strip_example :
  strip (newline ++ "   Это тестовый гороскоп. " ++ String "194" (String "160" "") ++ newline)
  = "Это тестовый гороскоп.".
Proof. reflexivity. Qed.

(** ** Dictionaries *)

Lemma dict_get_In {V} (d : list (string * V)) k v :
  Dict.get d k = Some v -> In (k, v) d.
Proof.
  induction d as [|[k' v'] d IH]; simpl; [discriminate|].
  case_bool_decide as Hk; intros Hg.
  - left. congruence.
  - right. auto.
Qed.

Lemma dict_contains_get {V} (d : list (string * V)) k :
  Dict.contains d k = true -> exists v, Dict.get d k = Some v.
Proof.
  unfold Dict.contains. destruct (Dict.get d k) as [v|]; [eauto | discriminate].
Qed.

Lemma dict_contains_keys {V} (d : list (string * V)) k :
  Dict.contains d k = true -> In k (Dict.keys d).
Proof.
  intros [v Hv]%dict_contains_get. apply dict_get_In in Hv.
  unfold Dict.keys. apply in_map_iff. exists (k, v). auto.
Qed.

(** ** The registry *)

(** Case analysis on a registered label. *)
Ltac each_sign H :=
  apply dict_contains_keys in H; simpl in H;
  repeat (destruct H as [H | H]; [subst | ]); [ .. | contradiction H].

Lemma registered_index label :
  registered label ->
  exists index, Dict.get ZODIAC_INDEXES label = Some index /\ 1 <= index <= 12.
Proof.
  intros H. each_sign H; (eexists; split; [reflexivity | lia]).
Qed.

Lemma index_registered label index :
  Dict.get ZODIAC_INDEXES label = Some index -> registered label /\ 1 <= index <= 12.
Proof.
  intros H. apply dict_get_In in H. simpl in H.
  repeat (destruct H as [H | H]; [injection H as <- <-; split; [reflexivity | lia] | ]).
  contradiction H.
Qed.

Lemma index_unique label1 label2 index :
  Dict.get ZODIAC_INDEXES label1 = Some index ->
  Dict.get ZODIAC_INDEXES label2 = Some index ->
  label1 = label2.
Proof.
  intros H1 H2. apply dict_get_In in H1, H2. simpl in H1, H2.
  repeat (destruct H1 as [H1 | H1]; [injection H1 as <- <- | ]); try contradiction H1;
    repeat (destruct H2 as [H2 | H2]; [by simplify_eq | ]); contradiction H2.
Qed.

Lemma index_label index :
  1 <= index <= 12 ->
  exists label, registered label /\ Dict.get ZODIAC_INDEXES label = Some index.
Proof.
  intros H.
  assert (Hcases : In index [1; 2; 3; 4; 5; 6; 7; 8; 9; 10; 11; 12]) by (simpl; lia).
  simpl in Hcases.
  exists (nth (Z.to_nat (index - 1)) (Dict.keys ZODIAC_SIGNS) "").
  repeat (destruct Hcases as [<- | Hcases]; [split; reflexivity | ]).
  contradiction Hcases.
Qed.

Lemma combination_of_indexes male female male_index female_index :
  Dict.get ZODIAC_INDEXES male = Some male_index ->
  Dict.get ZODIAC_INDEXES female = Some female_index ->
  calculate_combination_number (Some male) (Some female)
  = Ok (12 * (male_index - 1) + female_index).
Proof.
  intros Hm Hf. unfold calculate_combination_number, Dict.getitem.
  rewrite Hm, Hf. reflexivity.
Qed.

Lemma combination_Ok_inv male female n :
  calculate_combination_number (Some male) (Some female) = Ok n ->
  exists male_index female_index,
    Dict.get ZODIAC_INDEXES male = Some male_index /\
    Dict.get ZODIAC_INDEXES female = Some female_index /\
    n = 12 * (male_index - 1) + female_index.
Proof.
  unfold calculate_combination_number, Dict.getitem.
  destruct (Dict.get ZODIAC_INDEXES male) as [mi|]; [|discriminate].
  destruct (Dict.get ZODIAC_INDEXES female) as [fi|]; [|discriminate].
  intros [= <-]. eauto.
Qed.

(** C1: for registered labels [male] and [female] both index lookups
    succeed and [calculate_combination_number] returns
    [12 * (male_index - 1) + female_index]; Aries with Taurus gives 2 and
    Capricorn with Aquarius gives 119. *)
Theorem calculate_combination_number_formula :
  (forall male female,
     registered male -> registered female ->
     exists male_index female_index,
       Dict.get ZODIAC_INDEXES male = Some male_index /\
       Dict.get ZODIAC_INDEXES female = Some female_index /\
       calculate_combination_number (Some male) (Some female)
       = Ok (12 * (male_index - 1) + female_index))
  /\ calculate_combination_number (Some "♈ Овен") (Some "♉ Телец") = Ok 2
  /\ calculate_combination_number (Some "♑ Козерог") (Some "♒ Водолей") = Ok 119.
Proof.
  split; [|split; reflexivity].
  intros male female [mi [Hm _]]%registered_index [fi [Hf _]]%registered_index.
  exists mi, fi. auto using combination_of_indexes.
Qed.

Lemma calculate_combination_number_formula_witness :
  exists male_index female_index,
    Dict.get ZODIAC_INDEXES "♌ Лев" = Some male_index /\
    Dict.get ZODIAC_INDEXES "♍ Дева" = Some female_index /\
    calculate_combination_number (Some "♌ Лев") (Some "♍ Дева")
    = Ok (12 * (male_index - 1) + female_index).
Proof.
  apply (proj1 calculate_combination_number_formula "♌ Лев" "♍ Дева"); reflexivity.
Defined.

(** C2: the ordinals of the twelve registered labels are distinct and lie
    in 1..12, and [calculate_combination_number] maps the 144 ordered
    pairs of registered labels one-to-one onto 1..144: every result is in
    the range, equal results come from equal pairs, and every id of the
    range is the result of exactly one pair. *)
Theorem combination_bijection :
  (NoDup (Dict.keys ZODIAC_SIGNS) /\
   length (list_prod (Dict.keys ZODIAC_SIGNS) (Dict.keys ZODIAC_SIGNS)) = 144%nat)
  /\ (forall label, registered label ->
        exists index, Dict.get ZODIAC_INDEXES label = Some index /\ 1 <= index <= 12)
  /\ (forall label1 label2 index,
        registered label1 -> registered label2 ->
        Dict.get ZODIAC_INDEXES label1 = Some index ->
        Dict.get ZODIAC_INDEXES label2 = Some index ->
        label1 = label2)
  /\ (forall male female, registered male -> registered female ->
        exists id, calculate_combination_number (Some male) (Some female) = Ok id
                   /\ 1 <= id <= 144)
  /\ (forall male female male' female',
        registered male -> registered female ->
        registered male' -> registered female' ->
        calculate_combination_number (Some male) (Some female)
        = calculate_combination_number (Some male') (Some female') ->
        male = male' /\ female = female')
  /\ (forall id, 1 <= id <= 144 ->
        exists male female,
          registered male /\ registered female
          /\ calculate_combination_number (Some male) (Some female) = Ok id
          /\ forall male' female',
               registered male' -> registered female' ->
               calculate_combination_number (Some male') (Some female') = Ok id ->
               male' = male /\ female' = female).
Proof.
  assert (Hinj : forall male female male' female' id,
             calculate_combination_number (Some male) (Some female) = Ok id ->
             calculate_combination_number (Some male') (Some female') = Ok id ->
             male = male' /\ female = female').
  { intros male female male' female' id
      (mi & fi & Hm & Hf & ->)%combination_Ok_inv (mi' & fi' & Hm' & Hf' & Heq)%combination_Ok_inv.
    destruct (index_registered _ _ Hm) as [_ ?], (index_registered _ _ Hf) as [_ ?].
    destruct (index_registered _ _ Hm') as [_ ?], (index_registered _ _ Hf') as [_ ?].
    assert (mi' = mi) as -> by lia. assert (fi' = fi) as -> by lia.
    split; eapply index_unique; eassumption. }
  split; [split; [compute_done | reflexivity] |].
  split; [exact registered_index |].
  split; [intros label1 label2 index _ _; apply index_unique |].
  split; [| split].
  - intros male female [mi [Hm ?]]%registered_index [fi [Hf ?]]%registered_index.
    exists (12 * (mi - 1) + fi). split; [auto using combination_of_indexes | lia].
  - intros male female male' female'
      [mi [Hm ?]]%registered_index [fi [Hf ?]]%registered_index _ _ Heq.
    rewrite (combination_of_indexes _ _ _ _ Hm Hf) in Heq.
    eapply Hinj; [apply (combination_of_indexes _ _ _ _ Hm Hf) | congruence].
  - intros id Hid.
    destruct (index_label ((id - 1) / 12 + 1)) as (male & Hrm & Hm);
      [pose proof (Z.div_mod (id - 1) 12); pose proof (Z.mod_pos_bound (id - 1) 12); lia |].
    destruct (index_label ((id - 1) mod 12 + 1)) as (female & Hrf & Hf);
      [pose proof (Z.mod_pos_bound (id - 1) 12); lia |].
    assert (Hc : calculate_combination_number (Some male) (Some female) = Ok id).
    { rewrite (combination_of_indexes _ _ _ _ Hm Hf). f_equal.
      pose proof (Z.div_mod (id - 1) 12). lia. }
    exists male, female. do 3 (split; [assumption |]).
    intros male' female' _ _ Hc'. eapply Hinj; eassumption.
Qed.

Lemma combination_bijection_witness :
  exists male female,
    registered male /\ registered female
    /\ calculate_combination_number (Some male) (Some female) = Ok 119
    /\ forall male' female',
         registered male' -> registered female' ->
         calculate_combination_number (Some male') (Some female') = Ok 119 ->
         male' = male /\ female' = female.
Proof.
  destruct combination_bijection as (_ & _ & _ & _ & _ & Honto).
  apply (Honto 119). lia.
Defined.

(** ** The content fetcher *)

Example get_horoscope_test_page :
  get_horoscope
    (always {| status_code := 200; response_text := "" |})
    (parsed_as [NavigableString newline;
                container [NavigableString newline;
                           Tag "p" [] [NavigableString "Это тестовый гороскоп."];
                           NavigableString newline];
                NavigableString newline])
    "aries" "today"
  = Ok "Это тестовый гороскоп.".
Proof. reflexivity. Qed.

(** A container without a paragraph: [find('p')] is [None] and taking
    its [text] raises. *)
Example get_horoscope_container_without_paragraph :
  get_horoscope
    (always {| status_code := 200; response_text := "" |})
    (parsed_as [container [NavigableString "Прогноз готовится."]])
    "aries" "today"
  = Raise (AttributeError "'NoneType' object has no attribute 'text'").
Proof. reflexivity. Qed.

Example get_compatibility_test_page :
  get_compatibility
    (always {| status_code := 200; response_text := "" |})
    (parsed_as [NavigableString newline;
                container [NavigableString newline;
                           Tag "p" [] [NavigableString "Это тестовая совместимость."];
                           NavigableString newline];
                NavigableString newline])
    (Some "♈ Овен") (Some "♉ Телец")
  = Ok "Это тестовая совместимость.".
Proof. reflexivity. Qed.

(** C4, as stated, fails: when the request itself fails, [get_horoscope]
    raises the exception of [requests.get] and returns no text. *)
Lemma get_horoscope_request_failure_raises :
  get_horoscope offline (parsed_as []) "aries" "today"
  = Raise (RequestException "connection refused")
  /\ get_horoscope offline (parsed_as []) "aries" "today" <> Ok "Гороскоп не найден.".
Proof. split; [reflexivity | discriminate]. Qed.

(** C4, amended: when the request returns a response (of any status),
    [get_horoscope] returns the trimmed text of the first paragraph of the
    first container of the class when both are there, and "Гороскоп не
    найден." when no such container is there; when the request raises,
    [get_horoscope] raises the same exception. *)
Theorem get_horoscope_outcomes requests_get BeautifulSoup sign period :
  (forall response div p,
     requests_get (horoscope_url sign period) = Ok response ->
     find "div" (Some CONTAINER_CLASS) (BeautifulSoup (response_text response)) = Some div ->
     find "p" None div = Some p ->
     get_horoscope requests_get BeautifulSoup sign period = Ok (strip (text p)))
  /\ (forall response,
        requests_get (horoscope_url sign period) = Ok response ->
        find "div" (Some CONTAINER_CLASS) (BeautifulSoup (response_text response)) = None ->
        get_horoscope requests_get BeautifulSoup sign period = Ok "Гороскоп не найден.")
  /\ (forall e,
        requests_get (horoscope_url sign period) = Raise e ->
        get_horoscope requests_get BeautifulSoup sign period = Raise e).
Proof.
  unfold get_horoscope. repeat split.
  - intros response div p -> Hdiv Hp. simpl. rewrite Hdiv, Hp. reflexivity.
  - intros response -> Hdiv. simpl. rewrite Hdiv. reflexivity.
  - intros e ->. reflexivity.
Qed.

Lemma get_horoscope_outcomes_witness :
  get_horoscope
    (always {| status_code := 200; response_text := "" |})
    (parsed_as [container [Tag "h2" [] [NavigableString "Овен"];
                           Tag "p" [] [NavigableString "  Хороший день. "];
                           Tag "p" [] [NavigableString "Второй абзац."]]])
    "aries" "week"
  = Ok (strip (text (Tag "p" [] [NavigableString "  Хороший день. "])))
  /\ get_horoscope
       (always {| status_code := 404; response_text := "" |})
       (parsed_as [Tag "div" ["error"] [Tag "p" [] [NavigableString "404"]]])
       "aries" "week"
     = Ok "Гороскоп не найден."
  /\ get_horoscope offline (parsed_as []) "aries" "week"
     = Raise (RequestException "connection refused").
Proof.
  split; [| split].
  - eapply (proj1 (get_horoscope_outcomes _ _ "aries" "week")); reflexivity.
  - eapply (proj1 (proj2 (get_horoscope_outcomes _ _ "aries" "week"))); reflexivity.
  - eapply (proj2 (proj2 (get_horoscope_outcomes _ _ "aries" "week"))); reflexivity.
Defined.

(** C5: for registered signs, when the response to the compatibility
    request has a status other than 200, [get_compatibility] returns "Не
    удалось получить данные с сайта.", whatever the pair and whatever the
    body of the response. *)
Theorem get_compatibility_bad_status requests_get BeautifulSoup male female response :
  registered male -> registered female ->
  (forall id,
     calculate_combination_number (Some male) (Some female) = Ok id ->
     requests_get (compatibility_url id) = Ok response) ->
  status_code response <> 200 ->
  get_compatibility requests_get BeautifulSoup (Some male) (Some female)
  = Ok "Не удалось получить данные с сайта.".
Proof.
  intros [mi [Hm _]]%registered_index [fi [Hf _]]%registered_index Hget Hstatus.
  unfold get_compatibility.
  rewrite (combination_of_indexes _ _ _ _ Hm Hf). simpl.
  rewrite (Hget _ (combination_of_indexes _ _ _ _ Hm Hf)). simpl.
  destruct (Z.eqb_spec (status_code response) 200) as [Heq | Hne]; [contradiction | reflexivity].
Qed.

Lemma get_compatibility_bad_status_witness :
  get_compatibility
    (always {| status_code := 503; response_text := "" |})
    (parsed_as [container [Tag "p" [] [NavigableString "Это тестовая совместимость."]]])
    (Some "♑ Козерог") (Some "♒ Водолей")
  = Ok "Не удалось получить данные с сайта.".
Proof.
  apply (get_compatibility_bad_status _ _ "♑ Козерог" "♒ Водолей"
           {| status_code := 503; response_text := "" |});
    [reflexivity | reflexivity | reflexivity | discriminate].
Defined.

Lemma loop_details divs locals :
  compatibility_details (fold_left loop_body divs locals)
  = (compatibility_details locals ++ map paragraph_or_placeholder divs)%list.
Proof.
  revert locals. induction divs as [|div divs IH]; intros locals; simpl.
  - symmetry. apply app_nil_r.
  - rewrite IH. simpl. rewrite <- app_assoc. reflexivity.
Qed.

Lemma loop_title divs locals :
  title (fold_left loop_body divs locals)
  = match last divs with
    | Some div => Some (heading_or_placeholder div)
    | None => title locals
    end.
Proof.
  revert locals. induction divs as [|div divs IH]; intros locals; [reflexivity |].
  simpl fold_left. rewrite IH. destruct divs as [|next divs]; [reflexivity |].
  change (last (div :: next :: divs)) with (last (next :: divs)).
  destruct (last (next :: divs)) eqn:Hlast; [reflexivity |].
  apply last_None in Hlast. discriminate.
Qed.

(** C6: for a response of status 200, [get_compatibility] returns the
    trimmed paragraphs of all containers of the class, in document order,
    joined by a blank line, with "Информация отсутствует." for a container
    without a paragraph, and "Информация о совместимости не найдена." when
    there is no container; the heading of each container is computed
    (after the loop [title] holds that of the last container, "Без
    заголовка" by default) and the returned text is made of the
    paragraphs alone. *)
Theorem get_compatibility_success requests_get BeautifulSoup male female id response :
  calculate_combination_number male female = Ok id ->
  requests_get (compatibility_url id) = Ok response ->
  status_code response = 200 ->
  let divs := find_all "div" (Some CONTAINER_CLASS) (BeautifulSoup (response_text response)) in
  get_compatibility requests_get BeautifulSoup male female
  = Ok (match divs with
        | [] => "Информация о совместимости не найдена."
        | _ :: _ => String.concat (newline ++ newline) (map paragraph_or_placeholder divs)
        end)
  /\ title (loop divs) = heading_or_placeholder <$> last divs
  /\ (forall div, find "p" None div = None ->
        paragraph_or_placeholder div = "Информация отсутствует.")
  /\ (forall div p, find "p" None div = Some p ->
        paragraph_or_placeholder div = strip (text p))
  /\ (forall div, find "h2" None div = None ->
        heading_or_placeholder div = "Без заголовка").
Proof.
  intros Hid Hget Hstatus divs.
  split; [| split; [| repeat split]].
  - unfold get_compatibility. rewrite Hid. simpl. rewrite Hget. simpl.
    rewrite Hstatus. simpl. fold divs.
    destruct divs as [|div rest] eqn:Hdivs; [reflexivity |].
    unfold loop. rewrite loop_details. reflexivity.
  - unfold loop. rewrite loop_title. destruct (last divs); reflexivity.
  - intros div Hp. unfold paragraph_or_placeholder. rewrite Hp. reflexivity.
  - intros div p Hp. unfold paragraph_or_placeholder. rewrite Hp. reflexivity.
  - intros div Hh. unfold heading_or_placeholder. rewrite Hh. reflexivity.
Qed.

Lemma get_compatibility_success_witness :
  get_compatibility
    (always {| status_code := 200; response_text := "" |})
    (parsed_as [container [Tag "h2" [] [NavigableString "Овен и Телец"];
                           Tag "p" [] [NavigableString " Это тестовая совместимость. "]];
                container [Tag "h2" [] [NavigableString "Итог"]]])
    (Some "♈ Овен") (Some "♉ Телец")
  = Ok ("Это тестовая совместимость." ++ newline ++ newline ++ "Информация отсутствует.")
  /\ title (loop [container [Tag "h2" [] [NavigableString "Овен и Телец"];
                             Tag "p" [] [NavigableString " Это тестовая совместимость. "]];
                  container [Tag "h2" [] [NavigableString "Итог"]]])
     = Some "Итог".
Proof.
  destruct (get_compatibility_success
              (always {| status_code := 200; response_text := "" |})
              (parsed_as [container [Tag "h2" [] [NavigableString "Овен и Телец"];
                                     Tag "p" [] [NavigableString " Это тестовая совместимость. "]];
                          container [Tag "h2" [] [NavigableString "Итог"]]])
              (Some "♈ Овен") (Some "♉ Телец") 2
              {| status_code := 200; response_text := "" |}
              eq_refl eq_refl eq_refl) as (Htext & Htitle & _).
  split; [exact Htext | exact Htitle].
Defined.

(** ** The handlers *)

Lemma unregistered_contains text :
  ~ registered text -> Dict.contains ZODIAC_SIGNS text = false.
Proof. unfold registered. destruct (Dict.contains ZODIAC_SIGNS text); congruence. Qed.

Lemma registered_external sign :
  registered sign -> exists external, Dict.get ZODIAC_SIGNS sign = Some external.
Proof. apply dict_contains_get. Qed.

Lemma unregistered_get sign :
  ~ registered sign -> Dict.get ZODIAC_SIGNS sign = None.
Proof.
  intros H%unregistered_contains. unfold Dict.contains in H.
  destruct (Dict.get ZODIAC_SIGNS sign); [discriminate | reflexivity].
Qed.

Lemma select_sign_unregistered text w :
  ~ registered text ->
  select_sign text w
  = (Ok SELECT_SIGN,
     sent w "⏳ Пожалуйста, подождите немного перед следующим сообщением." None).
Proof. intros H%unregistered_contains. unfold select_sign. rewrite H. reflexivity. Qed.

Lemma select_sign_registered text w :
  registered text ->
  select_sign text w
  = (Ok SELECT_OPTION,
     sent {| user_data := <["sign" := text]> (user_data w); outbox := outbox w |}
          ("Вы выбрали " ++ text ++ ". Что вас интересует?") (resize_markup option_keyboard)).
Proof. intros H. unfold select_sign. rewrite H. reflexivity. Qed.

Lemma select_compatibility_female_unregistered text w :
  ~ registered text ->
  select_compatibility_female text w
  = (Ok SELECT_COMPATIBILITY_MALE,
     sent w "Пожалуйста, выберите знак из предложенного списка." None).
Proof.
  intros H%unregistered_contains. unfold select_compatibility_female. rewrite H. reflexivity.
Qed.

Lemma select_compatibility_female_registered text w :
  registered text ->
  select_compatibility_female text w
  = (Ok SELECT_COMPATIBILITY_FEMALE,
     sent {| user_data := <["male_sign" := text]> (user_data w); outbox := outbox w |}
          ("Вы выбрали " ++ text ++ ". Теперь выберите знак женщины:")
          (one_time_markup sign_keyboard)).
Proof. intros H. unfold select_compatibility_female. rewrite H. reflexivity. Qed.

Lemma compatibility_result_unregistered requests_get BeautifulSoup text w :
  ~ registered text ->
  compatibility_result requests_get BeautifulSoup text w
  = (Ok SELECT_COMPATIBILITY_FEMALE,
     sent w "Пожалуйста, выберите знак из предложенного списка." None).
Proof.
  intros H%unregistered_contains. unfold compatibility_result, bind, user_data_get.
  rewrite H. reflexivity.
Qed.

Lemma compatibility_result_frame requests_get BeautifulSoup text w :
  user_data (snd (compatibility_result requests_get BeautifulSoup text w)) = user_data w.
Proof.
  unfold compatibility_result, bind, user_data_get, lift.
  destruct (Dict.contains ZODIAC_SIGNS text); simpl; [| reflexivity].
  destruct (get_compatibility _ _ _ _); reflexivity.
Qed.

Lemma reply_horoscope_frame requests_get BeautifulSoup sign period w :
  user_data (snd (reply_horoscope requests_get BeautifulSoup sign period w)) = user_data w.
Proof.
  unfold reply_horoscope, bind, lift.
  destruct (Dict.getitem ZODIAC_SIGNS sign); [| reflexivity].
  destruct (get_horoscope _ _ _ _); reflexivity.
Qed.

Lemma horoscope_action_runs_reply requests_get BeautifulSoup choice period w :
  In (choice, period) horoscope_actions ->
  select_option requests_get BeautifulSoup choice w
  = bind (reply_horoscope requests_get BeautifulSoup (user_data w !! "sign") period)
         (fun _ => ret SELECT_OPTION) w.
Proof.
  intros H. simpl in H.
  destruct H as [[= <- <-] | [[= <- <-] | [[= <- <-] | []]]]; reflexivity.
Qed.

Lemma select_option_frame requests_get BeautifulSoup text w :
  user_data (snd (select_option requests_get BeautifulSoup text w)) = user_data w.
Proof.
  unfold select_option.
  unfold bind at 1. unfold user_data_get at 1.
  repeat case_bool_decide; try reflexivity.
  all: unfold bind.
  all: match goal with
       | |- context [reply_horoscope ?get ?parse ?sign ?period ?w0] =>
           pose proof (reply_horoscope_frame get parse sign period w0) as Hframe;
           destruct (reply_horoscope get parse sign period w0) as [[[]|e] w']; exact Hframe
       end.
Qed.

(** ** The conversation *)

Section Dispatch.

Variable requests_get : string -> result Response.
Variable BeautifulSoup : string -> Node.

Lemma step_select_sign text w :
  handle_update requests_get BeautifulSoup (Some SELECT_SIGN) (text_message text) w
  = (Some (select_sign text w), update_state (Some SELECT_SIGN) (fst (select_sign text w))).
Proof. reflexivity. Qed.

Lemma step_select_option text w :
  handle_update requests_get BeautifulSoup (Some SELECT_OPTION) (text_message text) w
  = (Some (select_option requests_get BeautifulSoup text w),
     update_state (Some SELECT_OPTION) (fst (select_option requests_get BeautifulSoup text w))).
Proof. reflexivity. Qed.

Lemma step_select_compatibility_male text w :
  handle_update requests_get BeautifulSoup (Some SELECT_COMPATIBILITY_MALE) (text_message text) w
  = (Some (select_compatibility_female text w),
     update_state (Some SELECT_COMPATIBILITY_MALE) (fst (select_compatibility_female text w))).
Proof. reflexivity. Qed.

Lemma step_select_compatibility_female text w :
  handle_update requests_get BeautifulSoup (Some SELECT_COMPATIBILITY_FEMALE) (text_message text) w
  = (Some (compatibility_result requests_get BeautifulSoup text w),
     update_state (Some SELECT_COMPATIBILITY_FEMALE)
       (fst (compatibility_result requests_get BeautifulSoup text w))).
Proof. reflexivity. Qed.

Lemma step_start w :
  handle_update requests_get BeautifulSoup None (command_message "start") w
  = (Some (start "/start" w), update_state None (fst (start "/start" w))).
Proof. reflexivity. Qed.

(** Whatever the state and the update, the callback that runs is one of
    the six of [conv_handler]. *)
Lemma step_callback conversation update w outcome conversation' :
  handle_update requests_get BeautifulSoup conversation update w = (Some outcome, conversation') ->
  In outcome
     [ start (update_text update) w;
       select_sign (update_text update) w;
       select_option requests_get BeautifulSoup (update_text update) w;
       select_compatibility_female (update_text update) w;
       compatibility_result requests_get BeautifulSoup (update_text update) w;
       cancel (update_text update) w ].
Proof.
  unfold handle_update, conv_handler.
  destruct update as [text [command|]], conversation as [state|];
    cbn [entry_points states fallbacks states_get first_match check_update
         update_command update_text app].
  all: repeat match goal with
         | |- context [if ?b then _ else _] => destruct b
         end;
    cbn [first_match check_update update_command app];
    repeat match goal with
      | |- context [if ?b then _ else _] => destruct b
      end.
  all: intros [= <- _] || discriminate.
  all: simpl; tauto.
Qed.

End Dispatch.

(** C3, as stated, fails: with Aries stored as the male sign, an
    unregistered text in state [SELECT_COMPATIBILITY_FEMALE] leaves the
    conversation in [SELECT_COMPATIBILITY_FEMALE]; it does not go back to
    [SELECT_COMPATIBILITY_MALE]. *)
Lemma female_state_invalid_input_not_back_to_male :
  registered "♈ Овен"
  /\ ~ registered "Несуществующий знак"
  /\ snd (handle_update offline (parsed_as [])
            (Some SELECT_COMPATIBILITY_FEMALE) (text_message "Несуществующий знак")
            (session {["male_sign" := "♈ Овен"]}))
     = Some SELECT_COMPATIBILITY_FEMALE
  /\ Some SELECT_COMPATIBILITY_FEMALE <> Some SELECT_COMPATIBILITY_MALE.
Proof.
  split; [reflexivity |]. split; [unfold registered; vm_compute; discriminate |].
  split; [| discriminate].
  rewrite step_select_compatibility_female.
  rewrite compatibility_result_unregistered; [reflexivity |].
  unfold registered; vm_compute; discriminate.
Qed.

(** C3, amended: in state [SELECT_COMPATIBILITY_FEMALE] with a registered
    male sign stored, a text that is not a registered label is answered
    with the one re-prompt "Пожалуйста, выберите знак из предложенного
    списка.", the session data stay as they were and the conversation
    stays in [SELECT_COMPATIBILITY_FEMALE]. *)
Theorem female_state_invalid_input_stays requests_get BeautifulSoup data male text :
  data !! "male_sign" = Some male ->
  registered male ->
  ~ registered text ->
  handle_update requests_get BeautifulSoup
    (Some SELECT_COMPATIBILITY_FEMALE) (text_message text) (session data)
  = (Some (Ok SELECT_COMPATIBILITY_FEMALE,
           {| user_data := data;
              outbox := [{| message_text := "Пожалуйста, выберите знак из предложенного списка.";
                            reply_markup := None |}] |}),
     Some SELECT_COMPATIBILITY_FEMALE).
Proof.
  intros _ _ Htext. rewrite step_select_compatibility_female.
  rewrite compatibility_result_unregistered by assumption. reflexivity.
Qed.

Lemma female_state_invalid_input_stays_witness :
  handle_update offline (parsed_as [])
    (Some SELECT_COMPATIBILITY_FEMALE) (text_message "Несуществующий знак")
    (session {["male_sign" := "♈ Овен"]})
  = (Some (Ok SELECT_COMPATIBILITY_FEMALE,
           {| user_data := {["male_sign" := "♈ Овен"]};
              outbox := [{| message_text := "Пожалуйста, выберите знак из предложенного списка.";
                            reply_markup := None |}] |}),
     Some SELECT_COMPATIBILITY_FEMALE).
Proof.
  apply (female_state_invalid_input_stays offline (parsed_as [])
           {["male_sign" := "♈ Овен"]} "♈ Овен" "Несуществующий знак").
  - reflexivity.
  - reflexivity.
  - unfold registered. vm_compute. discriminate.
Defined.

(** In state [SELECT_COMPATIBILITY_MALE] the callback is
    [select_compatibility_female]: there an unregistered text keeps the
    conversation in [SELECT_COMPATIBILITY_MALE]. *)
Lemma select_compatibility_female_invalid_input requests_get BeautifulSoup data text :
  ~ registered text ->
  handle_update requests_get BeautifulSoup
    (Some SELECT_COMPATIBILITY_MALE) (text_message text) (session data)
  = (Some (Ok SELECT_COMPATIBILITY_MALE,
           {| user_data := data;
              outbox := [{| message_text := "Пожалуйста, выберите знак из предложенного списка.";
                            reply_markup := None |}] |}),
     Some SELECT_COMPATIBILITY_MALE).
Proof.
  intros Htext. rewrite step_select_compatibility_male.
  rewrite select_compatibility_female_unregistered by assumption. reflexivity.
Qed.

(** C7: in state [SELECT_SIGN] a text that is not a registered label is
    answered with one message, the conversation stays in [SELECT_SIGN] and
    the session data are unchanged; for every text, [select_sign] writes
    the field "sign" exactly when the text is a registered label, and
    writes nothing else. *)
Theorem select_sign_invalid_input_frame requests_get BeautifulSoup data text :
  ~ registered text ->
  handle_update requests_get BeautifulSoup (Some SELECT_SIGN) (text_message text) (session data)
  = (Some (Ok SELECT_SIGN,
           {| user_data := data;
              outbox := [{| message_text :=
                              "⏳ Пожалуйста, подождите немного перед следующим сообщением.";
                            reply_markup := None |}] |}),
     Some SELECT_SIGN)
  /\ (forall text' w,
        user_data (snd (select_sign text' w))
        = if Dict.contains ZODIAC_SIGNS text'
          then <["sign" := text']> (user_data w)
          else user_data w).
Proof.
  intros Htext. split.
  - rewrite step_select_sign. rewrite select_sign_unregistered by assumption. reflexivity.
  - intros text' w. destruct (Dict.contains ZODIAC_SIGNS text') eqn:Hc.
    + rewrite select_sign_registered by exact Hc. reflexivity.
    + rewrite select_sign_unregistered; [reflexivity |]. unfold registered. congruence.
Qed.

Lemma select_sign_invalid_input_frame_witness :
  handle_update offline (parsed_as []) (Some SELECT_SIGN) (text_message "Змееносец")
    (session {["sign" := "♌ Лев"]})
  = (Some (Ok SELECT_SIGN,
           {| user_data := {["sign" := "♌ Лев"]};
              outbox := [{| message_text :=
                              "⏳ Пожалуйста, подождите немного перед следующим сообщением.";
                            reply_markup := None |}] |}),
     Some SELECT_SIGN).
Proof.
  apply (select_sign_invalid_input_frame offline (parsed_as [])
           {["sign" := "♌ Лев"]} "Змееносец").
  unfold registered. vm_compute. discriminate.
Defined.

(** C8: in state [SELECT_OPTION] the action "♻️ Сменить знак" does what
    the command [/start] does when it opens the conversation: the same
    single prompt with the keyboard of the twelve signs, the same session
    data, the same next state [SELECT_SIGN]. *)
Theorem change_sign_is_start requests_get BeautifulSoup data :
  handle_update requests_get BeautifulSoup
    (Some SELECT_OPTION) (text_message "♻️ Сменить знак") (session data)
  = handle_update requests_get BeautifulSoup None (command_message "start") (session data)
  /\ handle_update requests_get BeautifulSoup None (command_message "start") (session data)
     = (Some (Ok SELECT_SIGN,
              {| user_data := data;
                 outbox := [{| message_text := "🌟 Привет! Выберите ваш знак зодиака:";
                               reply_markup :=
                                 Some {| keyboard := map (fun zodiac => [zodiac])
                                                         (Dict.keys ZODIAC_SIGNS);
                                         one_time_keyboard := Some true;
                                         resize_keyboard := Some true |} |}] |}),
        Some SELECT_SIGN)
  /\ (forall w, select_option requests_get BeautifulSoup "♻️ Сменить знак" w
                = start "♻️ Сменить знак" w).
Proof.
  split; [| split].
  - rewrite step_select_option, step_start. reflexivity.
  - rewrite step_start. reflexivity.
  - intros w. reflexivity.
Qed.

(** C9: of the seven callbacks only [select_sign] and
    [select_compatibility_female] change the session data, the first by
    writing "sign" and the second by writing "male_sign", each only when
    the text is a registered label and each with that text;
    [compatibility_result] leaves the data as they were for every text, so
    the female sign is never stored. The same holds for every update the
    conversation takes in any state. *)
Theorem user_data_writes requests_get BeautifulSoup text w :
  user_data (snd (start text w)) = user_data w
  /\ user_data (snd (select_sign text w))
     = (if Dict.contains ZODIAC_SIGNS text
        then <["sign" := text]> (user_data w) else user_data w)
  /\ user_data (snd (select_option requests_get BeautifulSoup text w)) = user_data w
  /\ user_data (snd (select_compatibility_male text w)) = user_data w
  /\ user_data (snd (select_compatibility_female text w))
     = (if Dict.contains ZODIAC_SIGNS text
        then <["male_sign" := text]> (user_data w) else user_data w)
  /\ user_data (snd (compatibility_result requests_get BeautifulSoup text w)) = user_data w
  /\ user_data (snd (cancel text w)) = user_data w
  /\ (forall conversation update outcome conversation',
        handle_update requests_get BeautifulSoup conversation update w
        = (Some outcome, conversation') ->
        user_data (snd outcome) = user_data w
        \/ (registered (update_text update)
            /\ (user_data (snd outcome) = <["sign" := update_text update]> (user_data w)
                \/ user_data (snd outcome)
                   = <["male_sign" := update_text update]> (user_data w)))).
Proof.
  assert (Hsign : forall t,
             user_data (snd (select_sign t w))
             = if Dict.contains ZODIAC_SIGNS t
               then <["sign" := t]> (user_data w) else user_data w).
  { intros t. destruct (Dict.contains ZODIAC_SIGNS t) eqn:Hc.
    - rewrite select_sign_registered by exact Hc. reflexivity.
    - rewrite select_sign_unregistered; [reflexivity |]. unfold registered. congruence. }
  assert (Hmale : forall t,
             user_data (snd (select_compatibility_female t w))
             = if Dict.contains ZODIAC_SIGNS t
               then <["male_sign" := t]> (user_data w) else user_data w).
  { intros t. destruct (Dict.contains ZODIAC_SIGNS t) eqn:Hc.
    - rewrite select_compatibility_female_registered by exact Hc. reflexivity.
    - rewrite select_compatibility_female_unregistered; [reflexivity |].
      unfold registered. congruence. }
  split; [reflexivity |]. split; [apply Hsign |].
  split; [apply select_option_frame |]. split; [reflexivity |].
  split; [apply Hmale |]. split; [apply compatibility_result_frame |].
  split; [reflexivity |].
  intros conversation update outcome conversation' Hstep.
  apply step_callback in Hstep. simpl in Hstep.
  destruct Hstep as [<- | [<- | [<- | [<- | [<- | [<- | []]]]]]].
  - left. reflexivity.
  - rewrite Hsign. unfold registered.
    destruct (Dict.contains ZODIAC_SIGNS (update_text update)); auto.
  - left. apply select_option_frame.
  - rewrite Hmale. unfold registered.
    destruct (Dict.contains ZODIAC_SIGNS (update_text update)); auto.
  - left. apply compatibility_result_frame.
  - left. reflexivity.
Qed.

Lemma user_data_writes_witness :
  user_data (snd (compatibility_result
                    (always {| status_code := 200; response_text := "" |})
                    (parsed_as [container [Tag "p" [] [NavigableString "Это тестовая совместимость."]]])
                    "♉ Телец" (session {["male_sign" := "♈ Овен"]})))
  = {["male_sign" := "♈ Овен"]}
  \/ (registered "♉ Телец"
      /\ (user_data (snd (compatibility_result
                            (always {| status_code := 200; response_text := "" |})
                            (parsed_as [container [Tag "p" [] [NavigableString "Это тестовая совместимость."]]])
                            "♉ Телец" (session {["male_sign" := "♈ Овен"]})))
          = <["sign" := "♉ Телец"]> {["male_sign" := "♈ Овен"]}
          \/ user_data (snd (compatibility_result
                               (always {| status_code := 200; response_text := "" |})
                               (parsed_as [container [Tag "p" [] [NavigableString "Это тестовая совместимость."]]])
                               "♉ Телец" (session {["male_sign" := "♈ Овен"]})))
             = <["male_sign" := "♉ Телец"]> {["male_sign" := "♈ Овен"]})).
Proof.
  destruct (user_data_writes
              (always {| status_code := 200; response_text := "" |})
              (parsed_as [container [Tag "p" [] [NavigableString "Это тестовая совместимость."]]])
              "♉ Телец" (session {["male_sign" := "♈ Овен"]}))
    as (_ & _ & _ & _ & _ & _ & _ & Hany).
  apply (Hany (Some SELECT_COMPATIBILITY_FEMALE) (text_message "♉ Телец") _
              (Some SELECT_OPTION)).
  reflexivity.
Defined.

(** C10, as stated, fails: with a registered sign stored, the lookup
    succeeds but the horoscope action does not always return
    [SELECT_OPTION]; when the request fails the callback raises. *)
Lemma select_option_horoscope_may_raise :
  registered "♈ Овен"
  /\ select_option offline (parsed_as []) "🔮 Гороскоп на сегодня"
       (session {["sign" := "♈ Овен"]})
     = (Raise (RequestException "connection refused"), session {["sign" := "♈ Овен"]}).
Proof. split; reflexivity. Qed.

(** C10, amended: for each of the three horoscope actions, when the
    session holds a registered label under "sign" the lookup in
    [ZODIAC_SIGNS] succeeds, and the callback sends the text and returns
    [SELECT_OPTION] whenever [get_horoscope] returns a text, and raises
    what [get_horoscope] raises otherwise; when no sign is stored, or the
    stored one is not registered, the lookup raises [KeyError] and no
    message is sent. *)
Theorem select_option_horoscope_lookup requests_get BeautifulSoup choice period w :
  In (choice, period) horoscope_actions ->
  (forall sign,
     user_data w !! "sign" = Some sign -> registered sign ->
     exists external,
       Dict.getitem ZODIAC_SIGNS (Some sign) = Ok external
       /\ (forall horoscope,
             get_horoscope requests_get BeautifulSoup external period = Ok horoscope ->
             select_option requests_get BeautifulSoup choice w
             = (Ok SELECT_OPTION, sent w horoscope None))
       /\ (forall e,
             get_horoscope requests_get BeautifulSoup external period = Raise e ->
             select_option requests_get BeautifulSoup choice w = (Raise e, w)))
  /\ ((user_data w !! "sign" = None
       \/ exists sign, user_data w !! "sign" = Some sign /\ ~ registered sign) ->
      select_option requests_get BeautifulSoup choice w
      = (Raise (KeyError (user_data w !! "sign")), w)).
Proof.
  intros Haction. rewrite (horoscope_action_runs_reply _ _ _ _ _ Haction).
  unfold reply_horoscope, bind, lift. split.
  - intros sign -> [external Hext]%registered_external.
    exists external. unfold Dict.getitem. rewrite Hext. cbv beta iota.
    split; [reflexivity |]. split.
    + intros horoscope ->. reflexivity.
    + intros e ->. reflexivity.
  - intros [-> | (sign & -> & Hsign%unregistered_get)]; [reflexivity |].
    unfold Dict.getitem. rewrite Hsign. reflexivity.
Qed.

Lemma select_option_horoscope_lookup_witness :
  select_option
    (always {| status_code := 200; response_text := "" |})
    (parsed_as [container [Tag "p" [] [NavigableString "Это тестовый гороскоп."]]])
    "📅 Гороскоп на неделю" (session {["sign" := "♌ Лев"]})
  = (Ok SELECT_OPTION, sent (session {["sign" := "♌ Лев"]}) "Это тестовый гороскоп." None)
  /\ select_option offline (parsed_as []) "📅 Гороскоп на неделю" (session ∅)
     = (Raise (KeyError None), session ∅).
Proof.
  split.
  - destruct (proj1 (select_option_horoscope_lookup
                       (always {| status_code := 200; response_text := "" |})
                       (parsed_as [container [Tag "p" [] [NavigableString "Это тестовый гороскоп."]]])
                       "📅 Гороскоп на неделю" "week" (session {["sign" := "♌ Лев"]})
                       (or_intror (or_introl eq_refl)))
                    "♌ Лев") as (external & Hext & Hreturns & _);
      [reflexivity | reflexivity |].
    injection Hext as <-. apply Hreturns. reflexivity.
  - eapply eq_trans.
    + apply (proj2 (select_option_horoscope_lookup offline (parsed_as [])
                      "📅 Гороскоп на неделю" "week" (session ∅)
                      (or_intror (or_introl eq_refl)))).
      left. reflexivity.
    + reflexivity.
Defined.

(** * Further properties *)

(** ** The combination number: errors and order *)

Lemma unregistered_index label :
  ~ registered label -> Dict.get ZODIAC_INDEXES label = None.
Proof.
  intros Hno. destruct (Dict.get ZODIAC_INDEXES label) as [index|] eqn:Hget; [| reflexivity].
  destruct Hno. apply (index_registered _ _ Hget).
Qed.

Lemma combination_injective male female male' female' id :
  calculate_combination_number (Some male) (Some female) = Ok id ->
  calculate_combination_number (Some male') (Some female') = Ok id ->
  male = male' /\ female = female'.
Proof.
  intros (mi & fi & Hm & Hf & ->)%combination_Ok_inv
         (mi' & fi' & Hm' & Hf' & Heq)%combination_Ok_inv.
  destruct (index_registered _ _ Hm) as [_ ?], (index_registered _ _ Hf) as [_ ?].
  destruct (index_registered _ _ Hm') as [_ ?], (index_registered _ _ Hf') as [_ ?].
  assert (mi' = mi) as -> by lia. assert (fi' = fi) as -> by lia.
  split; eapply index_unique; eassumption.
Qed.

(** X1: [calculate_combination_number] returns a number exactly when both
    arguments are registered labels; otherwise it raises [KeyError] for
    the male argument when that one is not registered (whatever the female
    one is), and for the female argument when only that one is not. *)
Theorem combination_key_errors male female :
  ((exists id, calculate_combination_number male female = Ok id)
   <-> registered_value male /\ registered_value female)
  /\ (~ registered_value male ->
      calculate_combination_number male female = Raise (KeyError male))
  /\ (registered_value male -> ~ registered_value female ->
      calculate_combination_number male female = Raise (KeyError female)).
Proof.
  assert (Hbad : forall value, ~ registered_value value ->
                   Dict.getitem ZODIAC_INDEXES value = Raise (KeyError value)).
  { intros [label|] Hno; [| reflexivity]. unfold Dict.getitem.
    rewrite (unregistered_index label Hno). reflexivity. }
  assert (Hgood : forall value, registered_value value ->
                    exists index, Dict.getitem ZODIAC_INDEXES value = Ok index).
  { intros [label|] Hyes; [| contradiction].
    destruct (registered_index label Hyes) as (index & Hget & _).
    exists index. unfold Dict.getitem. rewrite Hget. reflexivity. }
  assert (Hmale : ~ registered_value male ->
                  calculate_combination_number male female = Raise (KeyError male)).
  { intros Hno. unfold calculate_combination_number. rewrite (Hbad _ Hno). reflexivity. }
  assert (Hfemale : registered_value male -> ~ registered_value female ->
                    calculate_combination_number male female = Raise (KeyError female)).
  { intros [mi Hm]%Hgood Hno. unfold calculate_combination_number.
    rewrite Hm, (Hbad _ Hno). reflexivity. }
  split; [| split; assumption].
  split.
  - intros [id Hid].
    destruct male as [m|], female as [f|]; try discriminate Hid.
    + apply combination_Ok_inv in Hid as (mi & fi & Hm & Hf & _).
      split; [apply (index_registered _ _ Hm) | apply (index_registered _ _ Hf)].
    + unfold calculate_combination_number in Hid.
      destruct (Dict.getitem ZODIAC_INDEXES (Some m)); discriminate Hid.
  - intros [[mi Hm]%Hgood [fi Hf]%Hgood]. exists (12 * (mi - 1) + fi).
    unfold calculate_combination_number. rewrite Hm, Hf. reflexivity.
Qed.

Lemma combination_key_errors_witness :
  calculate_combination_number None (Some "Несуществующий знак") = Raise (KeyError None)
  /\ calculate_combination_number (Some "♈ Овен") (Some "Несуществующий знак")
     = Raise (KeyError (Some "Несуществующий знак")).
Proof.
  split.
  - apply (proj1 (proj2 (combination_key_errors None (Some "Несуществующий знак")))).
    simpl. tauto.
  - apply (proj2 (proj2 (combination_key_errors (Some "♈ Овен") (Some "Несуществующий знак")))).
    + reflexivity.
    + simpl. unfold registered. vm_compute. discriminate.
Defined.

(** X2: The order of the two signs matters: for two different registered
    labels the two orders give different numbers. *)
Theorem combination_order_matters male female :
  registered male -> registered female -> male <> female ->
  exists id id',
    calculate_combination_number (Some male) (Some female) = Ok id
    /\ calculate_combination_number (Some female) (Some male) = Ok id'
    /\ id <> id'.
Proof.
  intros [mi [Hm ?]]%registered_index [fi [Hf ?]]%registered_index Hne.
  exists (12 * (mi - 1) + fi), (12 * (fi - 1) + mi).
  split; [auto using combination_of_indexes |].
  split; [auto using combination_of_indexes |].
  intros Heq. apply Hne. assert (mi = fi) as -> by lia.
  eapply index_unique; eassumption.
Qed.

Lemma combination_order_matters_witness :
  exists id id',
    calculate_combination_number (Some "♈ Овен") (Some "♉ Телец") = Ok id
    /\ calculate_combination_number (Some "♉ Телец") (Some "♈ Овен") = Ok id'
    /\ id <> id'.
Proof.
  apply (combination_order_matters "♈ Овен" "♉ Телец");
    [reflexivity | reflexivity | discriminate].
Defined.

(** ** The content fetcher: exceptions, status and addresses *)

Lemma get_horoscope_Raise_inv requests_get BeautifulSoup sign period e :
  get_horoscope requests_get BeautifulSoup sign period = Raise e ->
  requests_get (horoscope_url sign period) = Raise e
  \/ (e = AttributeError "'NoneType' object has no attribute 'text'"
      /\ exists response div,
           requests_get (horoscope_url sign period) = Ok response
           /\ find "div" (Some CONTAINER_CLASS) (BeautifulSoup (response_text response))
              = Some div
           /\ find "p" None div = None).
Proof.
  unfold get_horoscope.
  destruct (requests_get (horoscope_url sign period)) as [response | e'] eqn:Hget;
    [| intros [= <-]; left; reflexivity].
  cbv beta iota zeta delta [result_bind].
  destruct (find "div" (Some CONTAINER_CLASS) (BeautifulSoup (response_text response)))
    as [div |] eqn:Hdiv; [| discriminate].
  destruct (find "p" None div) as [p |] eqn:Hp; [discriminate |].
  intros [= <-]. right. split; [reflexivity |]. exists response, div. auto.
Qed.

Lemma get_compatibility_Raise_inv requests_get BeautifulSoup male female e :
  get_compatibility requests_get BeautifulSoup male female = Raise e ->
  calculate_combination_number male female = Raise e
  \/ exists id, calculate_combination_number male female = Ok id
                /\ requests_get (compatibility_url id) = Raise e.
Proof.
  unfold get_compatibility.
  destruct (calculate_combination_number male female) as [id | e'];
    [| intros [= <-]; left; reflexivity].
  cbv beta iota zeta delta [result_bind].
  destruct (requests_get (compatibility_url id)) as [response | e'] eqn:Hget.
  - destruct (negb (status_code response =? 200)); [discriminate |].
    destruct (find_all "div" (Some CONTAINER_CLASS) (BeautifulSoup (response_text response)));
      discriminate.
  - intros [= <-]. right. exists id. auto.
Qed.

(** X3: [get_horoscope] raises in two cases only: the request raised (the
    same exception), or the page has a container of the class whose first
    one holds no paragraph ([AttributeError]), whatever else the page
    holds. *)
Theorem get_horoscope_exceptions requests_get BeautifulSoup sign period e :
  get_horoscope requests_get BeautifulSoup sign period = Raise e
  <-> (requests_get (horoscope_url sign period) = Raise e
       \/ (e = AttributeError "'NoneType' object has no attribute 'text'"
           /\ exists response div,
                requests_get (horoscope_url sign period) = Ok response
                /\ find "div" (Some CONTAINER_CLASS) (BeautifulSoup (response_text response))
                   = Some div
                /\ find "p" None div = None)).
Proof.
  split; [apply get_horoscope_Raise_inv |].
  unfold get_horoscope.
  intros [-> | (-> & response & div & -> & Hdiv & Hp)]; [reflexivity |].
  cbv beta iota zeta delta [result_bind]. rewrite Hdiv, Hp. reflexivity.
Qed.

Lemma get_horoscope_exceptions_witness :
  get_horoscope
    (always {| status_code := 200; response_text := "" |})
    (parsed_as [container [Tag "h2" [] [NavigableString "Скоро"]];
                container [Tag "p" [] [NavigableString "Хороший день."]]])
    "leo" "month"
  = Raise (AttributeError "'NoneType' object has no attribute 'text'").
Proof.
  apply (proj2 (get_horoscope_exceptions
                  (always {| status_code := 200; response_text := "" |})
                  (parsed_as [container [Tag "h2" [] [NavigableString "Скоро"]];
                              container [Tag "p" [] [NavigableString "Хороший день."]]])
                  "leo" "month" _)).
  right. split; [reflexivity |].
  exists {| status_code := 200; response_text := "" |},
         (container [Tag "h2" [] [NavigableString "Скоро"]]).
  repeat split.
Defined.

(** X4: [get_compatibility] raises in two cases only: a sign is not
    registered (the [KeyError] of the combination number, before any
    request), or the request raised; no page makes it raise. *)
Theorem get_compatibility_exceptions requests_get BeautifulSoup male female e :
  get_compatibility requests_get BeautifulSoup male female = Raise e
  <-> (calculate_combination_number male female = Raise e
       \/ exists id, calculate_combination_number male female = Ok id
                     /\ requests_get (compatibility_url id) = Raise e).
Proof.
  split; [apply get_compatibility_Raise_inv |].
  unfold get_compatibility.
  intros [-> | (id & -> & Hget)]; [reflexivity |].
  cbv beta iota zeta delta [result_bind]. rewrite Hget. reflexivity.
Qed.

Lemma get_compatibility_exceptions_witness :
  get_compatibility offline (parsed_as []) (Some "♈ Овен") (Some "♉ Телец")
  = Raise (RequestException "connection refused")
  /\ get_compatibility
       (always {| status_code := 200; response_text := "" |}) (parsed_as [])
       None (Some "♉ Телец")
     = Raise (KeyError None).
Proof.
  split.
  - apply (proj2 (get_compatibility_exceptions offline (parsed_as [])
                    (Some "♈ Овен") (Some "♉ Телец") _)).
    right. exists 2. split; reflexivity.
  - apply (proj2 (get_compatibility_exceptions
                    (always {| status_code := 200; response_text := "" |}) (parsed_as [])
                    None (Some "♉ Телец") _)).
    left. reflexivity.
Defined.

(** X5: [get_horoscope] does not look at the status of the response: what it
    returns or raises is decided by the body alone. *)
Theorem get_horoscope_ignores_status requests_get BeautifulSoup sign period response status :
  requests_get (horoscope_url sign period) = Ok response ->
  get_horoscope requests_get BeautifulSoup sign period
  = get_horoscope
      (always {| status_code := status; response_text := response_text response |})
      BeautifulSoup sign period.
Proof. intros Hget. unfold get_horoscope, always. rewrite Hget. reflexivity. Qed.

Lemma get_horoscope_ignores_status_witness :
  get_horoscope
    (always {| status_code := 500; response_text := "" |})
    (parsed_as [container [Tag "p" [] [NavigableString "Сервис недоступен."]]])
    "leo" "today"
  = get_horoscope
      (always {| status_code := 200; response_text := "" |})
      (parsed_as [container [Tag "p" [] [NavigableString "Сервис недоступен."]]])
      "leo" "today".
Proof.
  apply (get_horoscope_ignores_status
           (always {| status_code := 500; response_text := "" |})
           (parsed_as [container [Tag "p" [] [NavigableString "Сервис недоступен."]]])
           "leo" "today" {| status_code := 500; response_text := "" |} 200).
  reflexivity.
Defined.

Lemma length_append (s1 s2 : string) :
  String.length (s1 ++ s2) = (String.length s1 + String.length s2)%nat.
Proof. induction s1 as [|c s1 IH]; simpl; [reflexivity | rewrite IH; reflexivity]. Qed.

Lemma append_inv_tail (s1 s2 tail : string) :
  s1 ++ tail = s2 ++ tail -> s1 = s2.
Proof.
  intros H.
  assert (Hlen : String.length s1 = String.length s2).
  { apply (f_equal String.length) in H. rewrite !length_append in H. lia. }
  revert s2 H Hlen. induction s1 as [|c s1 IH]; intros [|c' s2] H Hlen;
    try discriminate Hlen; [reflexivity |].
  simpl in H. injection H as -> H. f_equal. apply IH; [exact H |].
  simpl in Hlen. lia.
Qed.

Lemma compatibility_url_inj id id' :
  compatibility_url id = compatibility_url id' -> id = id'.
Proof.
  unfold compatibility_url. intros H.
  apply String.app_inj in H. apply append_inv_tail in H.
  apply pretty_Z_inj in H. exact H.
Qed.

(** X6: Every ordered pair of registered signs has an address of its own:
    the compatibility pages of two different pairs have different
    addresses. *)
Theorem compatibility_url_of_pair male female male' female' id id' :
  calculate_combination_number (Some male) (Some female) = Ok id ->
  calculate_combination_number (Some male') (Some female') = Ok id' ->
  (male, female) <> (male', female') ->
  compatibility_url id <> compatibility_url id'.
Proof.
  intros Hid Hid' Hne <-%compatibility_url_inj. apply Hne.
  destruct (combination_injective _ _ _ _ _ Hid Hid') as [<- <-]. reflexivity.
Qed.

Lemma compatibility_url_of_pair_witness :
  compatibility_url 2 = "https://horo.mail.ru/compatibility/zodiac/2/"
  /\ compatibility_url 13 = "https://horo.mail.ru/compatibility/zodiac/13/"
  /\ compatibility_url 2 <> compatibility_url 13.
Proof.
  split; [reflexivity |]. split; [reflexivity |].
  apply (compatibility_url_of_pair "♈ Овен" "♉ Телец" "♉ Телец" "♈ Овен" 2 13);
    [reflexivity | reflexivity | discriminate].
Defined.

(** ** The callbacks: what they return, send and write *)

Lemma info_registered label description :
  Dict.get ZODIAC_INFO label = Some description -> registered label.
Proof.
  intros H. apply dict_get_In in H. simpl in H.
  repeat (destruct H as [H | H]; [injection H as <- _; reflexivity | ]).
  contradiction H.
Qed.

Lemma registered_info label :
  registered label -> exists description, Dict.get ZODIAC_INFO label = Some description.
Proof. intros H. each_sign H; (eexists; reflexivity). Qed.


(** The outcome of [select_option] for every text: the state it returns
    with the one message it sent, or the exception with nothing sent. *)
Lemma select_option_outcome requests_get BeautifulSoup text w :
  (exists state message markup,
     select_option requests_get BeautifulSoup text w = (Ok state, sent w message markup)
     /\ (state = SELECT_OPTION \/ state = SELECT_SIGN \/ state = SELECT_COMPATIBILITY_MALE))
  \/ (exists e period,
        select_option requests_get BeautifulSoup text w = (Raise e, w)
        /\ (Dict.getitem ZODIAC_SIGNS (user_data w !! "sign") = Raise e
            \/ exists external,
                 Dict.getitem ZODIAC_SIGNS (user_data w !! "sign") = Ok external
                 /\ get_horoscope requests_get BeautifulSoup external period = Raise e)).
Proof.
  assert (Hreply : forall period,
             (exists horoscope,
                bind (reply_horoscope requests_get BeautifulSoup (user_data w !! "sign") period)
                     (fun _ => ret SELECT_OPTION) w
                = (Ok SELECT_OPTION, sent w horoscope None))
             \/ (exists e,
                   bind (reply_horoscope requests_get BeautifulSoup (user_data w !! "sign") period)
                        (fun _ => ret SELECT_OPTION) w
                   = (Raise e, w)
                   /\ (Dict.getitem ZODIAC_SIGNS (user_data w !! "sign") = Raise e
                       \/ exists external,
                            Dict.getitem ZODIAC_SIGNS (user_data w !! "sign") = Ok external
                            /\ get_horoscope requests_get BeautifulSoup external period
                               = Raise e))).
  { intros period. unfold reply_horoscope, bind, lift.
    destruct (Dict.getitem ZODIAC_SIGNS (user_data w !! "sign")) as [external | e];
      [| right; exists e; auto].
    destruct (get_horoscope requests_get BeautifulSoup external period)
      as [horoscope | e] eqn:Hh.
    - left. exists horoscope. reflexivity.
    - right. exists e. split; [reflexivity |]. right. exists external. auto. }
  remember (select_option requests_get BeautifulSoup text w) as outcome eqn:Hout.
  unfold select_option in Hout. unfold bind at 1, user_data_get at 1 in Hout.
  cbv beta iota in Hout.
  repeat case_bool_decide.
  1-3: match type of Hout with
       | context [reply_horoscope _ _ _ ?period] =>
           destruct (Hreply period) as [[horoscope Hr] | (e & Hr & He)];
           rewrite Hr in Hout; subst outcome;
           [left; exists SELECT_OPTION, horoscope, None; auto
           | right; exists e, period; auto]
       end.
  all: subst outcome; left; do 3 eexists; split; [reflexivity | auto].
Qed.

Lemma compatibility_result_outcome requests_get BeautifulSoup text w :
  compatibility_result requests_get BeautifulSoup text w
  = if Dict.contains ZODIAC_SIGNS text then
      match get_compatibility requests_get BeautifulSoup (user_data w !! "male_sign") (Some text) with
      | Ok compatibility =>
          (Ok SELECT_OPTION,
           sent (sent w compatibility None) "Что вас интересует?" (resize_markup option_keyboard))
      | Raise e => (Raise e, w)
      end
    else
      (Ok SELECT_COMPATIBILITY_FEMALE,
       sent w "Пожалуйста, выберите знак из предложенного списка." None).
Proof.
  unfold compatibility_result, bind, user_data_get, lift.
  destruct (Dict.contains ZODIAC_SIGNS text); [| reflexivity].
  cbv beta iota zeta delta [negb].
  destruct (get_compatibility _ _ _ _); reflexivity.
Qed.

(** ** The dispatch of [conv_handler] *)

Lemma step_idle requests_get BeautifulSoup update w :
  handle_update requests_get BeautifulSoup None update w
  = match update_command update with
    | Some command =>
        if bool_decide (command = "start")
        then (Some (start (update_text update) w), Some SELECT_SIGN)
        else (None, None)
    | None => (None, None)
    end.
Proof.
  destruct update as [text [command|]]; [| reflexivity].
  unfold handle_update, conv_handler.
  cbn [entry_points first_match check_update update_command update_text].
  case_bool_decide; reflexivity.
Qed.

Lemma step_command requests_get BeautifulSoup state text command w :
  handle_update requests_get BeautifulSoup (Some state)
    {| update_text := text; update_command := Some command |} w
  = if bool_decide (command = "cancel")
    then (Some (Ok END, sent w "👋 До свидания!" None), None)
    else (None, Some state).
Proof.
  unfold handle_update, conv_handler.
  cbn [states fallbacks states_get].
  repeat match goal with
         | |- context [if ?z =? ?k then _ else _] => destruct (z =? k)
         end;
    cbn [app first_match check_update update_command update_text];
    case_bool_decide; reflexivity.
Qed.

Lemma step_text_elsewhere requests_get BeautifulSoup state text w :
  state <> SELECT_SIGN -> state <> SELECT_OPTION ->
  state <> SELECT_COMPATIBILITY_MALE -> state <> SELECT_COMPATIBILITY_FEMALE ->
  handle_update requests_get BeautifulSoup (Some state) (text_message text) w
  = (None, Some state).
Proof.
  intros H0 H1 H2 H3. unfold handle_update, conv_handler.
  cbn [states fallbacks states_get].
  repeat match goal with
         | |- context [if ?z =? ?k then _ else _] =>
             destruct (Z.eqb_spec z k); [contradiction |]
         end.
  reflexivity.
Qed.

(** ** The menu *)

(** X7: The action "ℹ️ Информация о знаке" never raises: with a registered
    sign stored it sends that sign's entry of [ZODIAC_INFO], and with no
    sign or an unregistered one it sends "Информация о знаке недоступна.";
    the conversation stays in [SELECT_OPTION] and the data are kept. *)
Theorem sign_info_action requests_get BeautifulSoup data :
  exists info,
    handle_update requests_get BeautifulSoup
      (Some SELECT_OPTION) (text_message "ℹ️ Информация о знаке") (session data)
    = (Some (Ok SELECT_OPTION,
             {| user_data := data;
                outbox := [{| message_text := info; reply_markup := None |}] |}),
       Some SELECT_OPTION)
    /\ (forall sign, data !! "sign" = Some sign -> registered sign ->
          Dict.get ZODIAC_INFO sign = Some info)
    /\ (~ registered_value (data !! "sign") -> info = "Информация о знаке недоступна.").
Proof.
  exists (Dict.get_default ZODIAC_INFO (data !! "sign") "Информация о знаке недоступна.").
  split; [reflexivity |]. split.
  - intros sign -> [description Hd]%registered_info.
    unfold Dict.get_default. rewrite Hd. reflexivity.
  - destruct (data !! "sign") as [sign|]; [| reflexivity].
    intros Hno. unfold Dict.get_default.
    destruct (Dict.get ZODIAC_INFO sign) as [description|] eqn:Hd; [| reflexivity].
    destruct Hno. apply (info_registered _ _ Hd).
Qed.

Lemma sign_info_action_witness :
  exists info,
    handle_update offline (parsed_as [])
      (Some SELECT_OPTION) (text_message "ℹ️ Информация о знаке")
      (session {["sign" := "Змееносец"]})
    = (Some (Ok SELECT_OPTION,
             {| user_data := {["sign" := "Змееносец"]};
                outbox := [{| message_text := info; reply_markup := None |}] |}),
       Some SELECT_OPTION)
    /\ info = "Информация о знаке недоступна.".
Proof.
  destruct (sign_info_action offline (parsed_as []) {["sign" := "Змееносец"]})
    as (info & Hstep & _ & Hfallback).
  exists info. split; [exact Hstep |]. apply Hfallback.
  unfold registered_value, registered. vm_compute. discriminate.
Defined.

(** X8: In [SELECT_OPTION] every text that is not one of the six buttons of
    the menu keyboard is answered with "🚫 Пожалуйста, выберите опцию из
    списка."; the state and the data stay, whatever the session holds. *)
Theorem unrecognised_option requests_get BeautifulSoup data text :
  ~ In text (concat option_keyboard) ->
  handle_update requests_get BeautifulSoup (Some SELECT_OPTION) (text_message text) (session data)
  = (Some (Ok SELECT_OPTION,
           {| user_data := data;
              outbox := [{| message_text := "🚫 Пожалуйста, выберите опцию из списка.";
                            reply_markup := None |}] |}),
     Some SELECT_OPTION).
Proof.
  intros Hnot. rewrite step_select_option.
  assert (Hsel : select_option requests_get BeautifulSoup text (session data)
                 = (Ok SELECT_OPTION,
                    sent (session data) "🚫 Пожалуйста, выберите опцию из списка." None)).
  { unfold select_option. unfold bind at 1. unfold user_data_get at 1. cbv beta iota.
    repeat case_bool_decide; try reflexivity; subst text; destruct Hnot; simpl; tauto. }
  rewrite Hsel. reflexivity.
Qed.

Lemma unrecognised_option_witness :
  handle_update offline (parsed_as []) (Some SELECT_OPTION)
    (text_message "Некорректная команда") (session ∅)
  = (Some (Ok SELECT_OPTION,
           {| user_data := ∅;
              outbox := [{| message_text := "🚫 Пожалуйста, выберите опцию из списка.";
                            reply_markup := None |}] |}),
     Some SELECT_OPTION).
Proof.
  apply (unrecognised_option offline (parsed_as []) ∅ "Некорректная команда").
  simpl. intros H. repeat (destruct H as [H | H]; [discriminate H |]). exact H.
Defined.

(** ** Compatibility without a stored male sign *)

(** X9: In [SELECT_COMPATIBILITY_FEMALE], when the session holds no
    registered male sign, a registered female sign makes the callback
    raise the [KeyError] of the male lookup: no request is made, nothing
    is sent or written, and the conversation stays in the state. *)
Theorem compatibility_without_male_sign requests_get BeautifulSoup data female :
  ~ registered_value (data !! "male_sign") ->
  registered female ->
  handle_update requests_get BeautifulSoup
    (Some SELECT_COMPATIBILITY_FEMALE) (text_message female) (session data)
  = (Some (Raise (KeyError (data !! "male_sign")), session data),
     Some SELECT_COMPATIBILITY_FEMALE).
Proof.
  intros Hmale Hfemale. rewrite step_select_compatibility_female.
  rewrite compatibility_result_outcome. rewrite Hfemale.
  unfold get_compatibility, calculate_combination_number. simpl user_data.
  assert (Hbad : Dict.getitem ZODIAC_INDEXES (data !! "male_sign")
                 = Raise (KeyError (data !! "male_sign"))).
  { destruct (data !! "male_sign") as [male|]; [| reflexivity].
    unfold Dict.getitem. rewrite (unregistered_index male Hmale). reflexivity. }
  rewrite Hbad. reflexivity.
Qed.

Lemma compatibility_without_male_sign_witness :
  handle_update
    (always {| status_code := 200; response_text := "" |}) (parsed_as [])
    (Some SELECT_COMPATIBILITY_FEMALE) (text_message "♉ Телец") (session ∅)
  = (Some (Raise (KeyError None), session ∅), Some SELECT_COMPATIBILITY_FEMALE).
Proof.
  eapply eq_trans.
  - apply (compatibility_without_male_sign
             (always {| status_code := 200; response_text := "" |}) (parsed_as [])
             ∅ "♉ Телец").
    + simpl. tauto.
    + reflexivity.
  - reflexivity.
Defined.

(** ** Commands *)

(** X10: [/cancel] ends the conversation from every state: one farewell
    message without keyboard, the data kept, no conversation afterwards;
    outside a conversation [/cancel] is not handled. *)
Theorem cancel_ends_conversation requests_get BeautifulSoup state text data :
  handle_update requests_get BeautifulSoup (Some state)
    {| update_text := text; update_command := Some "cancel" |} (session data)
  = (Some (Ok END,
           {| user_data := data;
              outbox := [{| message_text := "👋 До свидания!"; reply_markup := None |}] |}),
     None)
  /\ handle_update requests_get BeautifulSoup None
       {| update_text := text; update_command := Some "cancel" |} (session data)
     = (None, None).
Proof. split; [rewrite step_command | rewrite step_idle]; reflexivity. Qed.



(** ** Every update *)

Lemma select_sign_outcome text w :
  select_sign text w
  = if Dict.contains ZODIAC_SIGNS text then
      (Ok SELECT_OPTION,
       sent {| user_data := <["sign" := text]> (user_data w); outbox := outbox w |}
            ("Вы выбрали " ++ text ++ ". Что вас интересует?") (resize_markup option_keyboard))
    else
      (Ok SELECT_SIGN,
       sent w "⏳ Пожалуйста, подождите немного перед следующим сообщением." None).
Proof. unfold select_sign. destruct (Dict.contains ZODIAC_SIGNS text); reflexivity. Qed.

Lemma select_compatibility_female_outcome text w :
  select_compatibility_female text w
  = if Dict.contains ZODIAC_SIGNS text then
      (Ok SELECT_COMPATIBILITY_FEMALE,
       sent {| user_data := <["male_sign" := text]> (user_data w); outbox := outbox w |}
            ("Вы выбрали " ++ text ++ ". Теперь выберите знак женщины:")
            (one_time_markup sign_keyboard))
    else
      (Ok SELECT_COMPATIBILITY_MALE,
       sent w "Пожалуйста, выберите знак из предложенного списка." None).
Proof.
  unfold select_compatibility_female. destruct (Dict.contains ZODIAC_SIGNS text); reflexivity.
Qed.

(** X12: Whatever the state and the update, a callback that returns has sent
    one message or two, and a callback that raises has sent nothing and
    written nothing. *)
Theorem every_callback_answers requests_get BeautifulSoup conversation update w
    outcome w' conversation' :
  handle_update requests_get BeautifulSoup conversation update w
  = (Some (outcome, w'), conversation') ->
  match outcome with
  | Ok _ =>
      exists first more,
        outbox w' = (outbox w ++ first :: more)%list /\ (length more <= 1)%nat
  | Raise _ => w' = w
  end.
Proof.
  intros Hstep. apply step_callback in Hstep. simpl in Hstep.
  destruct Hstep as [H | [H | [H | [H | [H | [H | []]]]]]].
  - injection H as <- <-. eexists _, []. split; [reflexivity | simpl; lia].
  - rewrite select_sign_outcome in H.
    destruct (Dict.contains ZODIAC_SIGNS (update_text update));
      injection H as <- <-; (eexists _, []; split; [reflexivity | simpl; lia]).
  - destruct (select_option_outcome requests_get BeautifulSoup (update_text update) w)
      as [(state & message & markup & Hs & _) | (e & period & Hs & _)];
      rewrite Hs in H; injection H as <- <-; [| reflexivity].
    eexists _, []. split; [reflexivity | simpl; lia].
  - rewrite select_compatibility_female_outcome in H.
    destruct (Dict.contains ZODIAC_SIGNS (update_text update));
      injection H as <- <-; (eexists _, []; split; [reflexivity | simpl; lia]).
  - rewrite compatibility_result_outcome in H.
    destruct (Dict.contains ZODIAC_SIGNS (update_text update)).
    + destruct (get_compatibility _ _ _ _); injection H as <- <-; [| reflexivity].
      eexists _, [_]. split; [| simpl; lia].
      simpl. rewrite <- app_assoc. reflexivity.
    + injection H as <- <-. eexists _, []. split; [reflexivity | simpl; lia].
  - injection H as <- <-. eexists _, []. split; [reflexivity | simpl; lia].
Qed.

Lemma every_callback_answers_witness :
  exists first more,
    outbox (sent (sent (session {["male_sign" := "♈ Овен"]}) "Это тестовая совместимость." None)
                 "Что вас интересует?" (resize_markup option_keyboard))
    = (outbox (session {["male_sign" := "♈ Овен"]}) ++ first :: more)%list
    /\ (length more <= 1)%nat.
Proof.
  apply (every_callback_answers
           (always {| status_code := 200; response_text := "" |})
           (parsed_as [container [Tag "p" [] [NavigableString "Это тестовая совместимость."]]])
           (Some SELECT_COMPATIBILITY_FEMALE) (text_message "♉ Телец")
           (session {["male_sign" := "♈ Овен"]})
           (Ok SELECT_OPTION) _ (Some SELECT_OPTION)).
  reflexivity.
Defined.

(** X13: The arrows of the conversation are those of [successors]: an update
    leads from a state only to a state listed there (in particular
    [SELECT_COMPATIBILITY_FEMALE] is entered only from
    [SELECT_COMPATIBILITY_MALE], and [SELECT_OPTION] only from
    [SELECT_SIGN] and [SELECT_COMPATIBILITY_FEMALE]), and from the four
    states of [conv_handler] and from outside a conversation every listed
    state is reached by some update. *)
Theorem conversation_arrows :
  (forall requests_get BeautifulSoup conversation update w,
     In (snd (handle_update requests_get BeautifulSoup conversation update w))
        (successors conversation))
  /\ (forall conversation target,
        In conversation [None; Some SELECT_SIGN; Some SELECT_OPTION;
                         Some SELECT_COMPATIBILITY_MALE; Some SELECT_COMPATIBILITY_FEMALE] ->
        In target (successors conversation) ->
        exists requests_get update data,
          snd (handle_update requests_get (parsed_as []) conversation update (session data))
          = target).
Proof.
  split.
  - intros requests_get BeautifulSoup [state|] update w.
    + destruct update as [text [command|]].
      * rewrite step_command. unfold successors.
        case_bool_decide;
          repeat match goal with
                 | |- context [if ?z =? ?k then _ else _] =>
                     destruct (Z.eqb_spec z k); [subst |]
                 end; simpl; tauto.
      * change {| update_text := text; update_command := None |} with (text_message text).
        destruct (Z.eq_dec state SELECT_SIGN) as [-> | H0].
        { rewrite step_select_sign, select_sign_outcome.
          destruct (Dict.contains ZODIAC_SIGNS text); simpl; tauto. }
        destruct (Z.eq_dec state SELECT_OPTION) as [-> | H1].
        { rewrite step_select_option.
          destruct (select_option_outcome requests_get BeautifulSoup text w)
            as [(s & message & markup & -> & [-> | [-> | ->]]) | (e & period & -> & _)];
            simpl; tauto. }
        destruct (Z.eq_dec state SELECT_COMPATIBILITY_MALE) as [-> | H2].
        { rewrite step_select_compatibility_male, select_compatibility_female_outcome.
          destruct (Dict.contains ZODIAC_SIGNS text); simpl; tauto. }
        destruct (Z.eq_dec state SELECT_COMPATIBILITY_FEMALE) as [-> | H3].
        { rewrite step_select_compatibility_female, compatibility_result_outcome.
          destruct (Dict.contains ZODIAC_SIGNS text); [| simpl; tauto].
          destruct (get_compatibility _ _ _ _); simpl; tauto. }
        rewrite step_text_elsewhere by assumption. unfold successors.
        repeat match goal with
               | |- context [if ?z =? ?k then _ else _] =>
                   destruct (Z.eqb_spec z k); [contradiction |]
               end.
        simpl. tauto.
    + rewrite step_idle. destruct (update_command update) as [command|]; [| simpl; tauto].
      case_bool_decide; simpl; tauto.
  - intros conversation target Hc Ht.
    exists (always {| status_code := 503; response_text := "" |}).
    simpl in Hc.
    repeat (destruct Hc as [<- | Hc];
            [simpl in Ht;
             repeat (destruct Ht as [<- | Ht];
                     [first
                        [ exists (command_message "cancel"), ∅; reflexivity
                        | exists (command_message "start"), ∅; reflexivity
                        | exists (text_message "Змееносец"), ∅; reflexivity
                        | exists (text_message "♌ Лев"), {["male_sign" := "♈ Овен"]}; reflexivity
                        | exists (text_message "♻️ Сменить знак"), ∅; reflexivity
                        | exists (text_message "💑 Совместимость"), ∅; reflexivity ]
                     |]);
             contradiction Ht
            |]).
    contradiction Hc.
Qed.

Lemma conversation_arrows_witness :
  exists requests_get update data,
    snd (handle_update requests_get (parsed_as [])
           (Some SELECT_COMPATIBILITY_FEMALE) update (session data))
    = Some SELECT_OPTION.
Proof.
  apply (proj2 conversation_arrows (Some SELECT_COMPATIBILITY_FEMALE) (Some SELECT_OPTION));
    simpl; tauto.
Defined.

(** ** The conversation over time *)

Lemma well_formed_step requests_get BeautifulSoup conversation update data :
  well_formed conversation data ->
  well_formed
    (snd (handle_update requests_get BeautifulSoup conversation update (session data)))
    match fst (handle_update requests_get BeautifulSoup conversation update (session data)) with
    | Some (_, w) => user_data w
    | None => data
    end.
Proof.
  intros Hwf. destruct conversation as [state|].
  - destruct update as [text [command|]].
    + rewrite step_command. case_bool_decide; [exact I | exact Hwf].
    + change {| update_text := text; update_command := None |} with (text_message text).
      destruct Hwf as [-> | [[-> Hsign] | [[-> Hsign] | (-> & Hsign & Hmale)]]].
      * rewrite step_select_sign, select_sign_outcome.
        destruct (Dict.contains ZODIAC_SIGNS text) eqn:Hc; simpl; [| tauto].
        right. left. split; [reflexivity |]. rewrite lookup_insert_eq. exact Hc.
      * rewrite step_select_option.
        destruct (select_option_outcome requests_get BeautifulSoup text (session data))
          as [(s & message & markup & -> & [-> | [-> | ->]]) | (e & period & -> & _)];
          simpl; tauto.
      * rewrite step_select_compatibility_male, select_compatibility_female_outcome.
        destruct (Dict.contains ZODIAC_SIGNS text) eqn:Hc; simpl; [| tauto].
        right. right. right. split; [reflexivity |].
        rewrite lookup_insert_ne by discriminate. rewrite lookup_insert_eq. auto.
      * rewrite step_select_compatibility_female, compatibility_result_outcome.
        destruct (Dict.contains ZODIAC_SIGNS text); [| simpl; tauto].
        destruct (get_compatibility _ _ _ _); simpl; tauto.
  - rewrite step_idle. destruct (update_command update) as [command|]; [| exact I].
    case_bool_decide; simpl; tauto.
Qed.

Lemma well_formed_run BeautifulSoup updates conversation data messages :
  well_formed conversation data ->
  well_formed (fst (fst (run BeautifulSoup updates (conversation, data, messages))))
              (snd (fst (run BeautifulSoup updates (conversation, data, messages)))).
Proof.
  revert conversation data messages.
  induction updates as [|[update requests_get] updates IH];
    intros conversation data messages Hwf; [exact Hwf |].
  pose proof (well_formed_step requests_get BeautifulSoup conversation update data Hwf) as Hstep.
  cbn [run].
  destruct (handle_update requests_get BeautifulSoup conversation update (session data))
    as [[[r w] |] conversation']; apply IH; exact Hstep.
Qed.

(** X14: Whatever updates arrive and whatever the site answers, a
    conversation that was opened by [/start] is, from [SELECT_OPTION] on,
    never without a registered sign under "sign", and is in
    [SELECT_COMPATIBILITY_FEMALE] only with a registered sign under
    "male_sign"; its state is always one of the four of [conv_handler]. *)
Theorem sessions_stay_well_formed BeautifulSoup updates data0 :
  match fst (run BeautifulSoup updates (None, data0, [])) with
  | (None, _) => True
  | (Some state, data) =>
      In state [SELECT_SIGN; SELECT_OPTION; SELECT_COMPATIBILITY_MALE;
                SELECT_COMPATIBILITY_FEMALE]
      /\ (state <> SELECT_SIGN -> registered_value (data !! "sign"))
      /\ (state = SELECT_COMPATIBILITY_FEMALE -> registered_value (data !! "male_sign"))
  end.
Proof.
  pose proof (well_formed_run BeautifulSoup updates None data0 [] I) as Hwf.
  destruct (fst (run BeautifulSoup updates (None, data0, []))) as [[state|] data];
    [| exact I].
  simpl in Hwf.
  destruct Hwf as [-> | [[-> Hsign] | [[-> Hsign] | (-> & Hsign & Hmale)]]];
    (split; [simpl; tauto |]); split; intros; congruence || assumption || discriminate.
Qed.



(** ** Flows *)

Lemma run_step BeautifulSoup update requests_get rest conversation data messages :
  run BeautifulSoup ((update, requests_get) :: rest) (conversation, data, messages)
  = run BeautifulSoup rest
      match fst (handle_update requests_get BeautifulSoup conversation update (session data)) with
      | Some (_, w) =>
          (snd (handle_update requests_get BeautifulSoup conversation update (session data)),
           user_data w, (messages ++ outbox w)%list)
      | None =>
          (snd (handle_update requests_get BeautifulSoup conversation update (session data)),
           data, messages)
      end.
Proof. reflexivity. Qed.

Lemma horoscope_action_sends requests_get BeautifulSoup choice period w sign external horoscope :
  In (choice, period) horoscope_actions ->
  user_data w !! "sign" = Some sign ->
  Dict.get ZODIAC_SIGNS sign = Some external ->
  get_horoscope requests_get BeautifulSoup external period = Ok horoscope ->
  select_option requests_get BeautifulSoup choice w = (Ok SELECT_OPTION, sent w horoscope None).
Proof.
  intros Haction Hsign Hext Hh. rewrite (horoscope_action_runs_reply _ _ _ _ _ Haction).
  unfold reply_horoscope, bind, lift, Dict.getitem.
  rewrite Hsign, Hext. cbv beta iota. rewrite Hh. reflexivity.
Qed.

(** X16: The horoscope sent is the one of the sign chosen last: a registered
    label typed in [SELECT_SIGN] replaces whatever sign was stored, and
    the horoscope action that follows asks for the page of that label's
    identifier and sends its text. *)
Theorem chosen_sign_is_used BeautifulSoup site1 site2 data sign external choice period horoscope :
  Dict.get ZODIAC_SIGNS sign = Some external ->
  In (choice, period) horoscope_actions ->
  get_horoscope site2 BeautifulSoup external period = Ok horoscope ->
  run BeautifulSoup
    [(text_message sign, site1); (text_message choice, site2)]
    (Some SELECT_SIGN, data, [])
  = (Some SELECT_OPTION,
     <["sign" := sign]> data,
     [ {| message_text := "Вы выбрали " ++ sign ++ ". Что вас интересует?";
          reply_markup := resize_markup option_keyboard |};
       {| message_text := horoscope; reply_markup := None |} ]).
Proof.
  intros Hext Haction Hh.
  assert (Hreg : Dict.contains ZODIAC_SIGNS sign = true)
    by (unfold Dict.contains; rewrite Hext; reflexivity).
  rewrite run_step, step_select_sign, select_sign_outcome, Hreg. cbn [fst snd update_state].
  change (SELECT_OPTION =? END) with false. cbv iota.
  rewrite run_step, step_select_option.
  rewrite (horoscope_action_sends site2 BeautifulSoup choice period _ sign external horoscope
             Haction (lookup_insert_eq _ _ _) Hext Hh).
  reflexivity.
Qed.

Lemma chosen_sign_is_used_witness :
  run (parsed_as [container [Tag "p" [] [NavigableString "Это тестовый гороскоп."]]])
    [(text_message "♌ Лев", offline);
     (text_message "📅 Гороскоп на неделю", always {| status_code := 200; response_text := "" |})]
    (Some SELECT_SIGN, {["sign" := "♈ Овен"]}, [])
  = (Some SELECT_OPTION,
     <["sign" := "♌ Лев"]> {["sign" := "♈ Овен"]},
     [ {| message_text := "Вы выбрали " ++ "♌ Лев" ++ ". Что вас интересует?";
          reply_markup := resize_markup option_keyboard |};
       {| message_text := "Это тестовый гороскоп."; reply_markup := None |} ]).
Proof.
  apply (chosen_sign_is_used
           (parsed_as [container [Tag "p" [] [NavigableString "Это тестовый гороскоп."]]])
           offline (always {| status_code := 200; response_text := "" |})
           {["sign" := "♈ Овен"]} "♌ Лев" "leo" "📅 Гороскоп на неделю" "week"
           "Это тестовый гороскоп.").
  - reflexivity.
  - simpl. tauto.
  - reflexivity.
Defined.

(** X17: The whole compatibility flow: from [SELECT_OPTION] the action
    "💑 Совместимость", a registered male label and a registered female
    label lead back to [SELECT_OPTION] whenever the site answers the
    request for the page of that ordered pair (with any status); the male
    label is stored, the female one is not, and four messages are sent:
    the two prompts, the text of [get_compatibility] and the menu. *)
Theorem compatibility_flow BeautifulSoup site1 site2 site3 data male female id response :
  calculate_combination_number (Some male) (Some female) = Ok id ->
  site3 (compatibility_url id) = Ok response ->
  exists compatibility,
    get_compatibility site3 BeautifulSoup (Some male) (Some female) = Ok compatibility
    /\ run BeautifulSoup
         [(text_message "💑 Совместимость", site1);
          (text_message male, site2);
          (text_message female, site3)]
         (Some SELECT_OPTION, data, [])
       = (Some SELECT_OPTION,
          <["male_sign" := male]> data,
          [ {| message_text := "Выберите знак мужчины:";
               reply_markup := one_time_markup sign_keyboard |};
            {| message_text := "Вы выбрали " ++ male ++ ". Теперь выберите знак женщины:";
               reply_markup := one_time_markup sign_keyboard |};
            {| message_text := compatibility; reply_markup := None |};
            {| message_text := "Что вас интересует?";
               reply_markup := resize_markup option_keyboard |} ]).
Proof.
  intros Hid Hsite.
  destruct (combination_Ok_inv _ _ _ Hid) as (mi & fi & Hm & Hf & _).
  destruct (index_registered _ _ Hm) as [Hmale _].
  destruct (index_registered _ _ Hf) as [Hfemale _].
  assert (Hok : exists compatibility,
             get_compatibility site3 BeautifulSoup (Some male) (Some female) = Ok compatibility).
  { unfold get_compatibility. rewrite Hid. cbv beta iota zeta delta [result_bind].
    rewrite Hsite.
    destruct (negb (status_code response =? 200)); [eauto |].
    destruct (find_all "div" (Some CONTAINER_CLASS) (BeautifulSoup (response_text response)));
      eauto. }
  destruct Hok as [compatibility Hok]. exists compatibility. split; [exact Hok |].
  rewrite run_step, step_select_option.
  change (select_option site1 BeautifulSoup "💑 Совместимость" (session data))
    with (select_compatibility_male "💑 Совместимость" (session data)).
  cbn [select_compatibility_male bind reply_text ret fst snd update_state user_data outbox
       session app].
  change (SELECT_COMPATIBILITY_MALE =? END) with false. cbv iota.
  rewrite run_step, step_select_compatibility_male, select_compatibility_female_outcome.
  unfold registered in Hmale. rewrite Hmale.
  cbn [fst snd update_state user_data outbox session sent app].
  change (SELECT_COMPATIBILITY_FEMALE =? END) with false. cbv iota.
  rewrite run_step, step_select_compatibility_female, compatibility_result_outcome.
  unfold registered in Hfemale. rewrite Hfemale.
  cbn [user_data session]. rewrite lookup_insert_eq, Hok. reflexivity.
Qed.

Lemma compatibility_flow_witness :
  exists compatibility,
    get_compatibility
      (always {| status_code := 200; response_text := "" |})
      (parsed_as [container [Tag "p" [] [NavigableString "Это тестовая совместимость."]]])
      (Some "♈ Овен") (Some "♉ Телец")
    = Ok compatibility
    /\ run (parsed_as [container [Tag "p" [] [NavigableString "Это тестовая совместимость."]]])
         [(text_message "💑 Совместимость", offline);
          (text_message "♈ Овен", offline);
          (text_message "♉ Телец", always {| status_code := 200; response_text := "" |})]
         (Some SELECT_OPTION, {["sign" := "♌ Лев"]}, [])
       = (Some SELECT_OPTION,
          <["male_sign" := "♈ Овен"]> {["sign" := "♌ Лев"]},
          [ {| message_text := "Выберите знак мужчины:";
               reply_markup := one_time_markup sign_keyboard |};
            {| message_text := "Вы выбрали " ++ "♈ Овен" ++ ". Теперь выберите знак женщины:";
               reply_markup := one_time_markup sign_keyboard |};
            {| message_text := compatibility; reply_markup := None |};
            {| message_text := "Что вас интересует?";
               reply_markup := resize_markup option_keyboard |} ]).
Proof.
  apply (compatibility_flow
           (parsed_as [container [Tag "p" [] [NavigableString "Это тестовая совместимость."]]])
           offline offline (always {| status_code := 200; response_text := "" |})
           {["sign" := "♌ Лев"]} "♈ Овен" "♉ Телец" 2
           {| status_code := 200; response_text := "" |});
    reflexivity.
Defined.

(** ** The sign keyboard *)

(** X18: The keyboard sent with the three sign prompts has one button per
    row, and its buttons are exactly the texts the sign callbacks accept:
    every button pressed in [SELECT_SIGN] leads to [SELECT_OPTION] and in
    [SELECT_COMPATIBILITY_MALE] to [SELECT_COMPATIBILITY_FEMALE], and
    every other text is turned down. *)
Theorem sign_keyboard_buttons requests_get BeautifulSoup text w :
  Forall (fun row => length row = 1%nat) sign_keyboard
  /\ (In [text] sign_keyboard ->
      snd (handle_update requests_get BeautifulSoup (Some SELECT_SIGN) (text_message text) w)
      = Some SELECT_OPTION
      /\ snd (handle_update requests_get BeautifulSoup
                (Some SELECT_COMPATIBILITY_MALE) (text_message text) w)
         = Some SELECT_COMPATIBILITY_FEMALE)
  /\ (~ In [text] sign_keyboard ->
      snd (handle_update requests_get BeautifulSoup (Some SELECT_SIGN) (text_message text) w)
      = Some SELECT_SIGN
      /\ snd (handle_update requests_get BeautifulSoup
                (Some SELECT_COMPATIBILITY_MALE) (text_message text) w)
         = Some SELECT_COMPATIBILITY_MALE).
Proof.
  assert (Hiff : In [text] sign_keyboard <-> Dict.contains ZODIAC_SIGNS text = true).
  { split.
    - intros H. simpl in H.
      repeat (destruct H as [[= <-] | H]; [reflexivity |]). contradiction H.
    - intros H%dict_contains_keys. unfold sign_keyboard.
      apply in_map_iff. exists text. auto. }
  split; [repeat constructor |].
  rewrite step_select_sign, step_select_compatibility_male.
  rewrite select_sign_outcome, select_compatibility_female_outcome.
  split; intros H.
  - apply Hiff in H. rewrite H. split; reflexivity.
  - destruct (Dict.contains ZODIAC_SIGNS text); [| split; reflexivity].
    destruct H. apply Hiff. reflexivity.
Qed.

Lemma sign_keyboard_buttons_witness :
  snd (handle_update offline (parsed_as []) (Some SELECT_SIGN) (text_message "♓ Рыбы")
         (session ∅))
  = Some SELECT_OPTION
  /\ snd (handle_update offline (parsed_as []) (Some SELECT_COMPATIBILITY_MALE)
            (text_message "♓ Рыбы") (session ∅))
     = Some SELECT_COMPATIBILITY_FEMALE.
Proof.
  apply (proj1 (proj2 (sign_keyboard_buttons offline (parsed_as []) "♓ Рыбы" (session ∅)))).
  simpl. tauto.
Defined.
